(** * The EKS metadata client ([internal/services/providers/eks/client/aws.go])

    A shallow embedding of the Go package [client]: the option-configured
    constructor [New], the three memoising getters [GetRegion],
    [GetAccountID] and [GetClusterName], the tag scan [getClusterName] and
    the batched lookup [GetInstancesByInstanceIDs].

    Conventions of the embedding.
    - A Go pointer [*T] is [ptr T] (that is [option T]); [nil] is [None].
      A slice [[]T] is [list T]; the nil slice and the empty slice are both
      [[]], as [len] and [range] do not tell them apart.
    - A Go function returning [(T, error)] returns the pair
      [(T * ptr error)]; a run-time panic (nil dereference) is the
      separate outcome [Panics].
    - The collaborators of the package (the AWS session factory, the
      credentials chain, the instance-metadata service and the EC2 API) are
      not part of the package. They are the fields of an [Env], each a
      function of the history of calls made so far, and every call is
      appended to that history, so that the number and the order of the
      remote calls can be observed. *)

From Stdlib Require Import List String Ascii Bool Arith Lia.
From Equations Require Import Equations.
Import ListNotations.
Local Open Scope string_scope.
Local Open Scope list_scope.

Set Implicit Arguments.

(** ** Go basics *)

Definition ptr (A : Type) : Type := option A.
Definition nil_ptr {A : Type} : ptr A := None.

(** [strings.HasPrefix(s, prefix)]. *)
Fixpoint HasPrefix (s prefix : string) : bool :=
  match prefix, s with
  | EmptyString, _ => true
  | String _ _, EmptyString => false
  | String p prefix', String c s' => Ascii.eqb c p && HasPrefix s' prefix'
  end.

(** [s[n:]] for [n <= len(s)]. *)
Fixpoint string_from (n : nat) (s : string) : string :=
  match n, s with
  | O, _ => s
  | S _, EmptyString => EmptyString
  | S n', String _ s' => string_from n' s'
  end.

(** [strings.TrimPrefix(s, prefix)]: [s] without the leading [prefix], and
    [s] itself when it does not start with [prefix]. *)
Definition TrimPrefix (s prefix : string) : string :=
  if HasPrefix s prefix then string_from (String.length prefix) s else s.

(** Go's [error] values.  [SdkError] is an error produced by a
    collaborator; [Errorf msg] is the value of a [fmt.Errorf] without a
    [%w] verb, [msg] being the formatted text; [WrapError msg err] is the
    value of a [fmt.Errorf] whose [%w] verb wraps [err]. *)
Inductive error : Type :=
| SdkError (msg : string)
| Errorf (msg : string)
| WrapError (msg : string) (wrapped : error).

(** [err.Error()]. *)
Definition ErrorString (e : error) : string :=
  match e with
  | SdkError msg => msg
  | Errorf msg => msg
  | WrapError msg _ => msg
  end.

(** [errors.Unwrap(err)]. *)
Definition Unwrap (e : error) : ptr error :=
  match e with
  | WrapError _ w => Some w
  | _ => None
  end.

(** [fmt.Errorf(prefix + "%w", err)]. *)
Definition Errorf_w (prefix : string) (err : error) : error :=
  WrapError (prefix ++ ErrorString err) err.

(** [fmt.Errorf(prefix + "%s", s)]. *)
Definition Errorf_s (prefix s : string) : error :=
  Errorf (prefix ++ s).

(** ** The SDK types the package touches *)

Module aws.
(** [aws.Config], restricted to the two fields the package sets. *)
Record Config : Type := mkConfig {
  Region : ptr string;
  CredentialsChainVerboseErrors : ptr bool
}.
Definition NewConfig : Config := mkConfig None None.
Definition WithRegion (region : string) (c : Config) : Config :=
  mkConfig (Some region) (CredentialsChainVerboseErrors c).
Definition WithCredentialsChainVerboseErrors (b : bool) (c : Config) : Config :=
  mkConfig (Region c) (Some b).
End aws.

Module session.
(** A session handle: the configurations it was opened with and a serial
    number chosen by the factory. *)
Record Session : Type := mkSession {
  serial : nat;
  Config : list aws.Config
}.
End session.

Module ec2metadata.
(** [ec2metadata.New(sess)]: a handle on the instance-metadata service. *)
Record EC2Metadata : Type := New { sess : session.Session }.
Record EC2InstanceIdentityDocument : Type := mkDocument {
  AccountID : string
}.
End ec2metadata.

Module ec2.
Record Tag : Type := mkTag {
  Key : ptr string;
  Value : ptr string
}.
Record Instance : Type := mkInstance {
  InstanceId : ptr string;
  Tags : list (ptr Tag)
}.
Record Reservation : Type := mkReservation {
  Instances : list (ptr Instance)
}.
Record Filter : Type := mkFilter {
  Name : ptr string;
  Values : list (ptr string)
}.
Record DescribeInstancesInput : Type := mkInput {
  Filters : list (ptr Filter);
  InstanceIds : list (ptr string)
}.
Record DescribeInstancesOutput : Type := mkOutput {
  Reservations : list (ptr Reservation)
}.
(** [ec2.New(sess)]: a handle on the EC2 API. *)
Record EC2 : Type := New { sess : session.Session }.
End ec2.

(** ** Constants of the package *)

Definition tagEKSK8sCluster : string := "k8s.io/cluster/".
Definition tagEKSKubernetesCluster : string := "kubernetes.io/cluster/".
Definition tagKOPSKubernetesCluster : string := "KubernetesCluster".
Definition owned : string := "owned".

Definition eksClusterTags : list string :=
  [tagEKSK8sCluster; tagEKSKubernetesCluster].

(** ** [getClusterName] *)

(** The inner loop of [getClusterName]: [for _, clusterTag := range
    eksClusterTags], returning from the function at the first prefix that
    the key starts with when the value is ["owned"]. *)
Fixpoint matchClusterTags (key value : string) (clusterTags : list string)
  : option string :=
  match clusterTags with
  | [] => None
  | clusterTag :: rest =>
      if HasPrefix key clusterTag && String.eqb value owned
      then Some (TrimPrefix key clusterTag)
      else matchClusterTags key value rest
  end.

Fixpoint getClusterName (tags : list (ptr ec2.Tag)) : string :=
  match tags with
  | [] => ""
  | tag :: rest =>
      match tag with
      | Some (ec2.mkTag (Some key) (Some value)) =>
          match matchClusterTags key value eksClusterTags with
          | Some name => name
          | None =>
              if String.eqb key tagKOPSKubernetesCluster
              then value
              else getClusterName rest
          end
      | _ => getClusterName rest
      end
  end.

(** ** The client, its collaborators and the effects *)

(** [context.Context] and [logrus.FieldLogger] are opaque to the package:
    it only hands them on. *)
Definition Context : Type := nat.
Definition FieldLogger : Type := nat.

Record client : Type := mkClient {
  log : FieldLogger;
  sess : ptr session.Session;
  metaClient : ptr ec2metadata.EC2Metadata;
  ec2Client : ptr ec2.EC2;
  region : ptr string;
  accountID : ptr string;
  clusterName : ptr string
}.

(** A call to a collaborator, with its receiver and arguments. *)
Inductive call : Type :=
| NewSessionCall (cfgs : list aws.Config)
| CredentialsGetCall (s : session.Session)
| RegionCall (m : ec2metadata.EC2Metadata)
| IdentityDocumentCall (m : ec2metadata.EC2Metadata)
| GetMetadataCall (m : ec2metadata.EC2Metadata) (p : string)
| DescribeInstancesCall (e : ec2.EC2) (input : ec2.DescribeInstancesInput).

(** The collaborators.  Each answer may depend on every call made before
    it (and on the context, which carries deadlines and cancellation). *)
Record Env : Type := mkEnv {
  session_NewSession :
    list call -> list aws.Config -> ptr session.Session * ptr error;
  credentials_Get :
    list call -> session.Session -> ptr error;
  RegionWithContext :
    list call -> Context -> ec2metadata.EC2Metadata -> string * ptr error;
  GetInstanceIdentityDocumentWithContext :
    list call -> Context -> ec2metadata.EC2Metadata ->
    ec2metadata.EC2InstanceIdentityDocument * ptr error;
  GetMetadataWithContext :
    list call -> Context -> ec2metadata.EC2Metadata -> string ->
    string * ptr error;
  DescribeInstancesWithContext :
    list call -> Context -> ec2.EC2 -> ec2.DescribeInstancesInput ->
    ptr ec2.DescribeInstancesOutput * ptr error
}.

(** The state a method runs in: the client its receiver points to and the
    calls made so far, oldest first. *)
Record State : Type := mkState {
  this : client;
  history : list call
}.

Inductive outcome (A : Type) : Type :=
| Returns (a : A)
| Panics.
Arguments Panics {A}.

Definition M (A : Type) : Type := State -> outcome A * State.

Definition ret {A : Type} (a : A) : M A := fun s => (Returns a, s).

Definition bind {A B : Type} (m : M A) (k : A -> M B) : M B :=
  fun s =>
    match m s with
    | (Returns a, s') => k a s'
    | (Panics, s') => (Panics, s')
    end.

Definition panic {A : Type} : M A := fun s => (Panics, s).

Declare Scope go_scope.
Delimit Scope go_scope with go.
Notation "x <- m ;; k" := (bind m (fun x => k))
  (at level 61, m at next level, right associativity) : go_scope.
Notation "' pat <- m ;; k" := (bind m (fun x => match x with pat => k end))
  (at level 61, pat pattern, m at next level, right associativity) : go_scope.
Notation "m ;; k" := (bind m (fun _ => k))
  (at level 61, right associativity) : go_scope.
Local Open Scope go_scope.

(** [*p]: a nil dereference panics. *)
Definition deref {A : Type} (p : ptr A) : M A :=
  match p with
  | Some a => ret a
  | None => panic
  end.

(** Reading [c] and assigning to its fields. *)
Definition get_client : M client := fun s => (Returns (this s), s).

Definition update (f : client -> client) : M unit :=
  fun s => (Returns tt, mkState (f (this s)) (history s)).

Definition with_sess (v : ptr session.Session) (c : client) : client :=
  mkClient (log c) v (metaClient c) (ec2Client c) (region c) (accountID c) (clusterName c).
Definition with_metaClient (v : ptr ec2metadata.EC2Metadata) (c : client) : client :=
  mkClient (log c) (sess c) v (ec2Client c) (region c) (accountID c) (clusterName c).
Definition with_ec2Client (v : ptr ec2.EC2) (c : client) : client :=
  mkClient (log c) (sess c) (metaClient c) v (region c) (accountID c) (clusterName c).
Definition with_region (v : ptr string) (c : client) : client :=
  mkClient (log c) (sess c) (metaClient c) (ec2Client c) v (accountID c) (clusterName c).
Definition with_accountID (v : ptr string) (c : client) : client :=
  mkClient (log c) (sess c) (metaClient c) (ec2Client c) (region c) v (clusterName c).
Definition with_clusterName (v : ptr string) (c : client) : client :=
  mkClient (log c) (sess c) (metaClient c) (ec2Client c) (region c) (accountID c) v.

Section Client.

Variable env : Env.

(** A call to a collaborator: its answer is the environment's at the
    present history, and the call joins the history. *)
Definition remote {A : Type} (c : call) (answer : list call -> A) : M A :=
  fun s => (Returns (answer (history s)),
            mkState (this s) (history s ++ [c])).

Definition NewSession (cfgs : list aws.Config)
  : M (ptr session.Session * ptr error) :=
  remote (NewSessionCall cfgs) (fun h => session_NewSession env h cfgs).

Definition Credentials_Get (s : session.Session) : M (ptr error) :=
  remote (CredentialsGetCall s) (fun h => credentials_Get env h s).

Definition Region (ctx : Context) (m : ec2metadata.EC2Metadata)
  : M (string * ptr error) :=
  remote (RegionCall m) (fun h => RegionWithContext env h ctx m).

Definition GetInstanceIdentityDocument (ctx : Context)
  (m : ec2metadata.EC2Metadata)
  : M (ec2metadata.EC2InstanceIdentityDocument * ptr error) :=
  remote (IdentityDocumentCall m)
         (fun h => GetInstanceIdentityDocumentWithContext env h ctx m).

Definition GetMetadata (ctx : Context) (m : ec2metadata.EC2Metadata)
  (p : string) : M (string * ptr error) :=
  remote (GetMetadataCall m p)
         (fun h => GetMetadataWithContext env h ctx m p).

Definition DescribeInstances (ctx : Context) (e : ec2.EC2)
  (input : ec2.DescribeInstancesInput)
  : M (ptr ec2.DescribeInstancesOutput * ptr error) :=
  remote (DescribeInstancesCall e input)
         (fun h => DescribeInstancesWithContext env h ctx e input).

(** *** Construction *)

(** [type Opt func(ctx context.Context, c *client) error]. *)
Definition Opt : Type := Context -> M (ptr error).

(** The loop of [New]. *)
Fixpoint applyOpts (ctx : Context) (opts : list Opt) : M (ptr error) :=
  match opts with
  | [] => ret None
  | opt :: rest =>
      err <- opt ctx ;;
      match err with
      | Some e => ret (Some e)
      | None => applyOpts ctx rest
      end
  end.

(** [New]: the client [c] is allocated by [New] itself, so [New] runs
    on a history alone; it returns [(nil, err)] or [(c, nil)]. *)
Definition New (ctx : Context) (lg : FieldLogger) (opts : list Opt)
  (h : list call) : outcome (ptr client * ptr error) * list call :=
  let c := mkClient lg None None None None None None in
  match applyOpts ctx opts (mkState c h) with
  | (Returns (Some err), s) => (Returns (None, Some err), history s)
  | (Returns None, s) => (Returns (Some (this s), None), history s)
  | (Panics, s) => (Panics, history s)
  end.

(** [ec2.New(sess)] and [ec2metadata.New(metaSess)] read the session they
    are given; they are reached only after the [err != nil] test, and a
    nil session there is a nil dereference inside the SDK. *)
Definition WithEC2Client : Opt := fun ctx =>
  c <- get_client ;;
  r <- deref (region c) ;;
  '(sess, err) <- NewSession
      [aws.WithCredentialsChainVerboseErrors true
         (aws.WithRegion r aws.NewConfig)] ;;
  match err with
  | Some e => ret (Some (Errorf_w "creating aws sdk session: " e))
  | None =>
      update (with_sess sess) ;;
      s <- deref sess ;;
      update (with_ec2Client (Some (ec2.New s))) ;;
      ret None
  end.

Definition WithValidateCredentials : Opt := fun ctx =>
  c <- get_client ;;
  s <- deref (sess c) ;;
  err <- Credentials_Get s ;;
  match err with
  | Some e => ret (Some (Errorf_w "validating aws credentials: " e))
  | None => ret None
  end.

Definition WithMetadata (accountID region clusterName : string) : Opt :=
  fun ctx =>
    update (with_accountID (Some accountID)) ;;
    update (with_region (Some region)) ;;
    update (with_clusterName (Some clusterName)) ;;
    ret None.

Definition WithMetadataDiscovery : Opt := fun ctx =>
  '(metaSess, err) <- NewSession [] ;;
  match err with
  | Some e => ret (Some (Errorf_w "creating metadata session: " e))
  | None =>
      ms <- deref metaSess ;;
      update (with_metaClient (Some (ec2metadata.New ms))) ;;
      c <- get_client ;;
      m <- deref (metaClient c) ;;
      '(region, err) <- Region ctx m ;;
      match err with
      | Some e => ret (Some (Errorf_w "getting instance region: " e))
      | None =>
          update (with_region (Some region)) ;;
          ret None
      end
  end.

(** *** The memoising getters *)

Definition GetRegion (ctx : Context) : M (ptr string * ptr error) :=
  c <- get_client ;;
  match region c with
  | Some _ => ret (region c, None)
  | None =>
      m <- deref (metaClient c) ;;
      '(region', err) <- Region ctx m ;;
      match err with
      | Some e => ret (None, Some e)
      | None =>
          update (with_region (Some region')) ;;
          c <- get_client ;;
          ret (region c, None)
      end
  end.

Definition GetAccountID (ctx : Context) : M (ptr string * ptr error) :=
  c <- get_client ;;
  match accountID c with
  | Some _ => ret (accountID c, None)
  | None =>
      m <- deref (metaClient c) ;;
      '(resp, err) <- GetInstanceIdentityDocument ctx m ;;
      match err with
      | Some e => ret (None, Some e)
      | None =>
          update (with_accountID (Some (ec2metadata.AccountID resp))) ;;
          c <- get_client ;;
          ret (accountID c, None)
      end
  end.

(** [resp.Reservations[0].Instances[0].Tags] is read three times in
    [GetClusterName], each time behind a length test; [first] is the
    indexing [l[0]] of a slice known to be non-empty, and the pointer it
    yields is dereferenced next. *)
Definition first {A : Type} (l : list (ptr A)) : M A :=
  match l with
  | x :: _ => deref x
  | [] => panic
  end.

Definition GetClusterName (ctx : Context) : M (ptr string * ptr error) :=
  c <- get_client ;;
  match clusterName c with
  | Some _ => ret (clusterName c, None)
  | None =>
      m <- deref (metaClient c) ;;
      '(instanceID, err) <- GetMetadata ctx m "instance-id" ;;
      match err with
      | Some e =>
          ret (None, Some (Errorf_w "getting instance id from metadata: " e))
      | None =>
          c <- get_client ;;
          e <- deref (ec2Client c) ;;
          '(resp, err) <- DescribeInstances ctx e
              (ec2.mkInput [] [Some instanceID]) ;;
          match err with
          | Some e =>
              ret (None, Some (Errorf_w
                ("describing instance_id=" ++ instanceID ++ ": ") e))
          | None =>
              resp <- deref resp ;;
              if Nat.eqb (List.length (ec2.Reservations resp)) 0 then
                ret (None, Some (Errorf_s
                  "no reservations found for instance_id=" instanceID))
              else
              reservation <- first (ec2.Reservations resp) ;;
              if Nat.eqb (List.length (ec2.Instances reservation)) 0 then
                ret (None, Some (Errorf_s
                  "no instances found for instance_id=" instanceID))
              else
              instance <- first (ec2.Instances reservation) ;;
              if Nat.eqb (List.length (ec2.Tags instance)) 0 then
                ret (None, Some (Errorf_s
                  "no tags found for instance_id=" instanceID))
              else
              let clusterName' := getClusterName (ec2.Tags instance) in
              if String.eqb clusterName' "" then
                ret (None, Some (Errorf_s
                  "discovering cluster name: instance cluster tags not found for instance_id="
                  instanceID))
              else
              update (with_clusterName (Some clusterName')) ;;
              c <- get_client ;;
              ret (clusterName c, None)
          end
      end
  end.

(** *** The batched lookup *)

Definition batchSize : nat := 20.

(** The slice expression [l[lo:hi]] for [lo <= hi <= len(l)]. *)
Definition slice {A : Type} (l : list A) (lo hi : nat) : list A :=
  firstn (hi - lo) (skipn lo l).

(** [for _, reservation := range resp.Reservations
       { instances = append(instances, reservation.Instances...) }];
    a nil reservation panics at [reservation.Instances]. *)
Fixpoint appendReservations (instances : list (ptr ec2.Instance))
  (reservations : list (ptr ec2.Reservation)) : M (list (ptr ec2.Instance)) :=
  match reservations with
  | [] => ret instances
  | reservation :: rest =>
      r <- deref reservation ;;
      appendReservations (instances ++ ec2.Instances r) rest
  end.

(** The request built for one batch. *)
Definition batchRequest (batch : list (ptr string)) : ec2.DescribeInstancesInput :=
  ec2.mkInput [Some (ec2.mkFilter (Some "instance-id") batch)] [].

(** The body of the batch loop up to the test of [err]: the call for the
    batch that starts at index [i]. *)
Definition describeBatch (ctx : Context) (idsPtr : list (ptr string)) (i : nat)
  : M (ptr ec2.DescribeInstancesOutput * ptr error) :=
  let batch := slice idsPtr i (Nat.min (i + batchSize) (List.length idsPtr)) in
  c <- get_client ;;
  e <- deref (ec2Client c) ;;
  DescribeInstances ctx e (batchRequest batch).

(** [for i := 0; i < len(idsPtr); i += batchSize { ... }], from index
    [i] on.  [math.Min] on the two [float64] conversions is the minimum
    of the two indices: both are lengths of slices held in memory, far
    below 2^53, where the conversion is exact. *)
Equations? batchLoop (ctx : Context) (idsPtr : list (ptr string)) (i : nat)
  (instances : list (ptr ec2.Instance)) (s : State)
  : outcome (list (ptr ec2.Instance) * ptr error) * State
  by wf (List.length idsPtr - i) lt :=
  batchLoop ctx idsPtr i instances s with lt_dec i (List.length idsPtr) => {
    | right _ => (Returns (instances, None), s)
    | left _ =>
        match describeBatch ctx idsPtr i s with
        | (Panics, s1) => (Panics, s1)
        | (Returns (_, Some err), s1) =>
            (Returns ([], Some (Errorf_w "describing instances: " err)), s1)
        | (Returns (None, None), s1) => (Panics, s1)
        | (Returns (Some resp, None), s1) =>
            match appendReservations instances (ec2.Reservations resp) s1 with
            | (Panics, s2) => (Panics, s2)
            | (Returns instances', s2) =>
                batchLoop ctx idsPtr (i + batchSize) instances' s2
            end
        end }.
Proof. unfold batchSize. lia. Qed.

Definition GetInstancesByInstanceIDs (ctx : Context) (instanceIDs : list string)
  : M (list (ptr ec2.Instance) * ptr error) :=
  let idsPtr := map (@Some string) instanceIDs in
  batchLoop ctx idsPtr 0 [].

End Client.

(** [type Client interface]: the four operations, over whatever state an
    implementation keeps; [client] with its collaborators implements it. *)
Class Client (St : Type) : Type := {
  Client_GetRegion :
    Context -> St -> outcome (ptr string * ptr error) * St;
  Client_GetAccountID :
    Context -> St -> outcome (ptr string * ptr error) * St;
  Client_GetClusterName :
    Context -> St -> outcome (ptr string * ptr error) * St;
  Client_GetInstancesByInstanceIDs :
    Context -> list string -> St ->
    outcome (list (ptr ec2.Instance) * ptr error) * St
}.

Definition client_Client (env : Env) : Client State := {|
  Client_GetRegion := GetRegion env;
  Client_GetAccountID := GetAccountID env;
  Client_GetClusterName := GetClusterName env;
  Client_GetInstancesByInstanceIDs := GetInstancesByInstanceIDs env
|}.

(** * Definitions for the statements

    What the properties below are stated with: the rules of the tag scan,
    the calls of a discovery, the partition into chunks and the run over
    them, and a configurable stand-in for the collaborators. *)

(** A tag that neither rule of [getClusterName] accepts: a nil tag, a tag
    with a nil key or value, or a tag that is not an ["owned"] tag under an
    ownership prefix and whose key is not the legacy key. *)
Definition matchesNoRule (tag : ptr ec2.Tag) : Prop :=
  match tag with
  | Some (ec2.mkTag (Some key) (Some value)) =>
      (forall prefix, In prefix eksClusterTags ->
         ~ (HasPrefix key prefix = true /\ value = owned))
      /\ key <> tagKOPSKubernetesCluster
  | _ => True
  end.

(** The same test as a function: [true] on the tags a rule accepts. *)
Definition acceptsTag (tag : ptr ec2.Tag) : bool :=
  match tag with
  | Some (ec2.mkTag (Some key) (Some value)) =>
      existsb (fun prefix => HasPrefix key prefix && String.eqb value owned)
              eksClusterTags
      || String.eqb key tagKOPSKubernetesCluster
  | _ => false
  end.

(** The two calls a discovery makes. *)
Definition discoveryCalls (m : ec2metadata.EC2Metadata) (e : ec2.EC2)
  (instanceID : string) : list call :=
  [GetMetadataCall m "instance-id";
   DescribeInstancesCall e (ec2.mkInput [] [Some instanceID])].

(** A stand-in for the collaborators, as the generated mock of the
    package's tests would be configured: the session factory and the
    credentials chain succeed while [sessionOK] holds of the history and
    fail otherwise; the metadata service answers while [metaOK] holds of
    the history and fails otherwise; the EC2 API answers by [describe]. *)
Definition mockSession : session.Session := session.mkSession 1 [].
Definition mockMeta : ec2metadata.EC2Metadata := ec2metadata.New mockSession.
Definition mockEC2 : ec2.EC2 := ec2.New mockSession.

Definition mockEnv (sessionOK metaOK : list call -> bool)
  (describe : list call -> ec2.DescribeInstancesInput ->
              ptr ec2.DescribeInstancesOutput * ptr error) : Env :=
  mkEnv
    (fun h cfgs => if sessionOK h then (Some (session.mkSession 1 cfgs), None)
                   else (None, Some (SdkError "session: no credentials")))
    (fun h _ => if sessionOK h then None
                else Some (SdkError "session: no credentials"))
    (fun h _ _ => if metaOK h then ("eu-west-1", None)
                  else ("", Some (SdkError "metadata: request failed")))
    (fun h _ _ => if metaOK h
                  then (ec2metadata.mkDocument "123456789012", None)
                  else (ec2metadata.mkDocument "",
                        Some (SdkError "metadata: request failed")))
    (fun h _ _ _ => if metaOK h then ("i-0abc", None)
                    else ("", Some (SdkError "metadata: request failed")))
    (fun h _ _ input => describe h input).

(** A client with both collaborators configured and nothing cached. *)
Definition mockClient : client :=
  mkClient 0 (Some mockSession) (Some mockMeta) (Some mockEC2) None None None.

(** An EC2 API that describes one instance carrying [tags]. *)
Definition describeTags (tags : list (ptr ec2.Tag))
  : list call -> ec2.DescribeInstancesInput ->
    ptr ec2.DescribeInstancesOutput * ptr error :=
  fun _ _ =>
    (Some (ec2.mkOutput
       [Some (ec2.mkReservation [Some (ec2.mkInstance (Some "i-0abc") tags)])]),
     None).

(** [stepsOk ctx opts s s']: run in order from [s], every step of [opts]
    returns a nil error, and the last one leaves [s']. *)
Inductive stepsOk (ctx : Context) : list Opt -> State -> State -> Prop :=
| stepsOk_nil (s : State) : stepsOk ctx [] s s
| stepsOk_cons (opt : Opt) (rest : list Opt) (s s1 s2 : State) :
    opt ctx s = (Returns None, s1) ->
    stepsOk ctx rest s1 s2 ->
    stepsOk ctx (opt :: rest) s s2.

(** The configuration [WithEC2Client] opens its session with. *)
Definition ec2SessionConfig (r : string) : list aws.Config :=
  [aws.WithCredentialsChainVerboseErrors true (aws.WithRegion r aws.NewConfig)].

(** An EC2 API that describes one instance owned by the cluster [prod]. *)
Definition describeProd
  : list call -> ec2.DescribeInstancesInput ->
    ptr ec2.DescribeInstancesOutput * ptr error :=
  describeTags [Some (ec2.mkTag (Some "kubernetes.io/cluster/prod") (Some "owned"))].

(** The partition of a list into consecutive chunks of [n] elements, the
    last one holding what remains. *)
Equations? chunks {A : Type} (n : nat) (l : list A) : list (list A)
  by wf (List.length l) lt :=
  chunks 0 _ := [];
  chunks (S k) [] := [];
  chunks (S k) (x :: l) := (x :: firstn k l) :: chunks (S k) (skipn k l).
Proof. rewrite length_skipn. cbn. lia. Qed.

(** One describe-call per chunk, in order, accumulating the instances of
    every reservation of every response and stopping at the first call
    that fails. *)
Fixpoint forEachChunk (env : Env) (ctx : Context)
  (batches : list (list (ptr string))) (instances : list (ptr ec2.Instance))
  (s : State) : outcome (list (ptr ec2.Instance) * ptr error) * State :=
  match batches with
  | [] => (Returns (instances, None), s)
  | batch :: rest =>
      match (c <- get_client ;;
             e <- deref (ec2Client c) ;;
             DescribeInstances env ctx e (batchRequest batch)) s with
      | (Panics, s1) => (Panics, s1)
      | (Returns (_, Some err), s1) =>
          (Returns ([], Some (Errorf_w "describing instances: " err)), s1)
      | (Returns (None, None), s1) => (Panics, s1)
      | (Returns (Some resp, None), s1) =>
          match appendReservations instances (ec2.Reservations resp) s1 with
          | (Panics, s2) => (Panics, s2)
          | (Returns instances', s2) => forEachChunk env ctx rest instances' s2
          end
      end
  end.

(** The call made for one batch. *)
Definition batchCall (e : ec2.EC2) (batch : list (ptr string)) : call :=
  DescribeInstancesCall e (batchRequest batch).

(** The answers the EC2 API gives when called for each batch in turn,
    starting from the history [h]. *)
Fixpoint responses (env : Env) (ctx : Context) (e : ec2.EC2) (h : list call)
  (batches : list (list (ptr string)))
  : list (ptr ec2.DescribeInstancesOutput * ptr error) :=
  match batches with
  | [] => []
  | batch :: rest =>
      DescribeInstancesWithContext env h ctx e (batchRequest batch)
      :: responses env ctx e (h ++ [batchCall e batch]) rest
  end.

(** The instances of a response, reservation by reservation. *)
Definition reservationInstances (r : ptr ec2.Reservation)
  : list (ptr ec2.Instance) :=
  match r with
  | Some r => ec2.Instances r
  | None => []
  end.

Definition outputInstances (out : ec2.DescribeInstancesOutput)
  : list (ptr ec2.Instance) :=
  flat_map reservationInstances (ec2.Reservations out).

(** A response as the SDK decodes it: no nil reservation. *)
Definition wellFormed (out : ec2.DescribeInstancesOutput) : Prop :=
  Forall (fun r => r <> None) (ec2.Reservations out).

(** A successful answer. *)
Definition answered (out : ec2.DescribeInstancesOutput)
  : ptr ec2.DescribeInstancesOutput * ptr error :=
  (Some out, None).

(** An EC2 API that answers a filtered request with one reservation
    holding one instance per requested identifier, in the order asked. *)
Definition filterValues (input : ec2.DescribeInstancesInput) : list (ptr string) :=
  flat_map (fun f => match f with
                     | Some f => ec2.Values f
                     | None => []
                     end) (ec2.Filters input).

Definition echoOutput (values : list (ptr string)) : ec2.DescribeInstancesOutput :=
  ec2.mkOutput
    [Some (ec2.mkReservation (map (fun v => Some (ec2.mkInstance v [])) values))].

Definition describeEcho
  : list call -> ec2.DescribeInstancesInput ->
    ptr ec2.DescribeInstancesOutput * ptr error :=
  fun _ input => (Some (echoOutput (filterValues input)), None).

(** The same API, failing on the call numbered [k] (from 0). *)
Definition describeFailingAt (k : nat)
  : list call -> ec2.DescribeInstancesInput ->
    ptr ec2.DescribeInstancesOutput * ptr error :=
  fun h input =>
    if Nat.eqb (List.length h) k
    then (None, Some (SdkError "ec2: throttled"))
    else describeEcho h input.

(** Forty-five identifiers, ["0"], ["1"], ... in ASCII order. *)
Definition sampleIDs : list string :=
  map (fun k => String (Ascii.ascii_of_nat (48 + k)) EmptyString) (seq 0 45).

(** * Properties *)

(** ** The tag scan *)

Lemma HasPrefix_eks_exclusive (key : string) :
  HasPrefix key tagEKSK8sCluster = true ->
  HasPrefix key tagEKSKubernetesCluster = false.
Proof.
  destruct key as [|a [|b key]]; cbn; try discriminate.
  - now rewrite andb_false_r.
  - destruct (Ascii.eqb_spec b "8") as [->|]; cbn.
    + intros _. now rewrite andb_false_r.
    + rewrite andb_false_r. discriminate.
Qed.

Lemma matchClusterTags_owned (key value prefix : string) :
  In prefix eksClusterTags ->
  HasPrefix key prefix = true ->
  value = owned ->
  matchClusterTags key value eksClusterTags = Some (TrimPrefix key prefix).
Proof.
  intros Hin Hpre ->. unfold eksClusterTags in *. cbn [matchClusterTags].
  rewrite String.eqb_refl, !andb_true_r.
  destruct Hin as [<- | [<- | []]].
  - now rewrite Hpre.
  - destruct (HasPrefix key tagEKSK8sCluster) eqn:E.
    + apply HasPrefix_eks_exclusive in E. congruence.
    + now rewrite Hpre.
Qed.

Lemma matchClusterTags_none (key value : string) :
  (forall prefix, In prefix eksClusterTags ->
     ~ (HasPrefix key prefix = true /\ value = owned)) ->
  matchClusterTags key value eksClusterTags = None.
Proof.
  intros H. unfold eksClusterTags in *. cbn [matchClusterTags].
  destruct (String.eqb_spec value owned) as [Hv | Hv].
  - rewrite !andb_true_r.
    destruct (HasPrefix key tagEKSK8sCluster) eqn:E1.
    { exfalso. apply (H tagEKSK8sCluster); cbn; auto. }
    destruct (HasPrefix key tagEKSKubernetesCluster) eqn:E2.
    { exfalso. apply (H tagEKSKubernetesCluster); cbn; auto. }
    reflexivity.
  - now rewrite !andb_false_r.
Qed.

Lemma acceptsTag_false (tag : ptr ec2.Tag) :
  acceptsTag tag = false <-> matchesNoRule tag.
Proof.
  destruct tag as [[[key|] [value|]]|]; cbn; try tauto.
  rewrite !orb_false_iff. split.
  - intros [(H1 & H2 & _) H3]. split.
    + intros prefix [<- | [<- | []]] [Hp ->];
        rewrite Hp, String.eqb_refl in *; discriminate.
    + intros ->. now rewrite String.eqb_refl in H3.
  - intros [Hown Hkey]. repeat split.
    + destruct (HasPrefix key tagEKSK8sCluster) eqn:Hp; [|reflexivity].
      destruct (String.eqb_spec value owned) as [Hv|]; [|reflexivity].
      exfalso. apply (Hown tagEKSK8sCluster); auto.
    + destruct (HasPrefix key tagEKSKubernetesCluster) eqn:Hp; [|reflexivity].
      destruct (String.eqb_spec value owned) as [Hv|]; [|reflexivity].
      exfalso. apply (Hown tagEKSKubernetesCluster); auto.
    + now destruct (String.eqb_spec key tagKOPSKubernetesCluster).
Qed.

Lemma getClusterName_skip (pre rest : list (ptr ec2.Tag)) :
  Forall matchesNoRule pre ->
  getClusterName (pre ++ rest) = getClusterName rest.
Proof.
  induction 1 as [| tag pre Htag _ IH]; [reflexivity|].
  cbn [app getClusterName].
  destruct tag as [[[key|] [value|]]|]; try exact IH.
  destruct Htag as [Hown Hkops].
  rewrite (matchClusterTags_none _ Hown).
  destruct (String.eqb_spec key tagKOPSKubernetesCluster); [contradiction|].
  exact IH.
Qed.

(** C1. [getClusterName] scans the tags in order and answers for the first
    tag that one of the two rules accepts, whatever follows it: when that
    tag's key starts with ["k8s.io/cluster/"] or ["kubernetes.io/cluster/"]
    and its value is ["owned"], the answer is the key without that prefix;
    otherwise, when its key is exactly ["KubernetesCluster"], the answer is
    its value. *)
Theorem getClusterName_first_match
  (pre post : list (ptr ec2.Tag)) (key value : string) :
  Forall matchesNoRule pre ->
  let tags := pre ++ Some (ec2.mkTag (Some key) (Some value)) :: post in
  (forall prefix,
      prefix = "k8s.io/cluster/" \/ prefix = "kubernetes.io/cluster/" ->
      HasPrefix key prefix = true -> value = "owned" ->
      getClusterName tags = TrimPrefix key prefix)
  /\ ((forall prefix,
         prefix = "k8s.io/cluster/" \/ prefix = "kubernetes.io/cluster/" ->
         ~ (HasPrefix key prefix = true /\ value = "owned")) ->
      key = "KubernetesCluster" ->
      getClusterName tags = value).
Proof.
  intros Hpre tags. subst tags. rewrite (getClusterName_skip _ Hpre).
  cbn [getClusterName]. split.
  - intros prefix Hin Hk Hv.
    rewrite (@matchClusterTags_owned key value prefix); auto.
    destruct Hin as [-> | ->]; cbn; auto.
  - intros Hno ->.
    rewrite matchClusterTags_none; [reflexivity|].
    intros prefix Hin. apply Hno.
    destruct Hin as [<- | [<- | []]]; auto.
Qed.

(** C1 at a concrete tag list: a nil tag, a tag that is not owned, then an
    owned tag, then a legacy tag that would also match. *)
Lemma getClusterName_first_match_witness :
  getClusterName
    [None;
     Some (ec2.mkTag (Some "kubernetes.io/cluster/a") (Some "shared"));
     Some (ec2.mkTag (Some "kubernetes.io/cluster/prod") (Some "owned"));
     Some (ec2.mkTag (Some "KubernetesCluster") (Some "legacy"))]
  = "prod".
Proof.
  refine (proj1 (@getClusterName_first_match
            [None; Some (ec2.mkTag (Some "kubernetes.io/cluster/a") (Some "shared"))]
            [Some (ec2.mkTag (Some "KubernetesCluster") (Some "legacy"))]
            "kubernetes.io/cluster/prod" "owned" _)
          "kubernetes.io/cluster/" _ _ _).
  - repeat constructor; cbn; try discriminate.
    intros prefix _ [_ H]. discriminate H.
  - right. reflexivity.
  - reflexivity.
  - reflexivity.
Defined.

(** ** Cluster-name discovery *)

Ltac run_getter :=
  unfold GetRegion, GetAccountID, GetClusterName, bind, get_client, update,
    Region, GetInstanceIdentityDocument, GetMetadata, DescribeInstances,
    remote, first, deref, ret, panic; cbn.

Ltac step H := rewrite H; cbn.

Lemma getClusterName_no_match (tags : list (ptr ec2.Tag)) :
  Forall matchesNoRule tags -> getClusterName tags = "".
Proof.
  intros H. rewrite <- (app_nil_r tags). now rewrite getClusterName_skip.
Qed.

Section Discovery.

(** A call of [GetClusterName] that performs discovery: the name is not
    cached, both collaborators are configured, the metadata service
    gives the instance identifier and the describe-call gives [resp]. *)
Variables (env : Env) (ctx : Context) (c : client) (h : list call).
Variables (m : ec2metadata.EC2Metadata) (e : ec2.EC2).
Variables (instanceID : string) (resp : ec2.DescribeInstancesOutput).

Hypothesis Hunset : clusterName c = None.
Hypothesis HmetaClient : metaClient c = Some m.
Hypothesis Hec2Client : ec2Client c = Some e.
Hypothesis Hmetadata :
  GetMetadataWithContext env h ctx m "instance-id" = (instanceID, None).
Hypothesis Hdescribe :
  DescribeInstancesWithContext env (h ++ [GetMetadataCall m "instance-id"])
    ctx e (ec2.mkInput [] [Some instanceID]) = (Some resp, None).

Ltac discover :=
  run_getter; step Hunset; step HmetaClient; step Hmetadata;
  step Hec2Client; step Hdescribe; rewrite <- app_assoc; cbn [app].

Lemma discovery_no_reservations :
  ec2.Reservations resp = [] ->
  GetClusterName env ctx (mkState c h) =
  (Returns (None, Some (Errorf_s "no reservations found for instance_id=" instanceID)),
   mkState c (h ++ discoveryCalls m e instanceID)).
Proof. intros H. discover. now step H. Qed.

Lemma discovery_no_instances (r : ec2.Reservation) rs :
  ec2.Reservations resp = Some r :: rs ->
  ec2.Instances r = [] ->
  GetClusterName env ctx (mkState c h) =
  (Returns (None, Some (Errorf_s "no instances found for instance_id=" instanceID)),
   mkState c (h ++ discoveryCalls m e instanceID)).
Proof. intros H1 H2. discover. step H1. now step H2. Qed.

Lemma discovery_no_tags (r : ec2.Reservation) rs (i : ec2.Instance) insts :
  ec2.Reservations resp = Some r :: rs ->
  ec2.Instances r = Some i :: insts ->
  ec2.Tags i = [] ->
  GetClusterName env ctx (mkState c h) =
  (Returns (None, Some (Errorf_s "no tags found for instance_id=" instanceID)),
   mkState c (h ++ discoveryCalls m e instanceID)).
Proof. intros H1 H2 H3. discover. step H1. step H2. now step H3. Qed.

(** With tags present, the answer of [getClusterName] decides. *)
Lemma discovery_tags (r : ec2.Reservation) rs (i : ec2.Instance) insts :
  ec2.Reservations resp = Some r :: rs ->
  ec2.Instances r = Some i :: insts ->
  ec2.Tags i <> [] ->
  GetClusterName env ctx (mkState c h) =
  if String.eqb (getClusterName (ec2.Tags i)) ""
  then (Returns (None, Some (Errorf_s
          "discovering cluster name: instance cluster tags not found for instance_id="
          instanceID)),
        mkState c (h ++ discoveryCalls m e instanceID))
  else (Returns (Some (getClusterName (ec2.Tags i)), None),
        mkState (with_clusterName (Some (getClusterName (ec2.Tags i))) c)
                (h ++ discoveryCalls m e instanceID)).
Proof.
  intros H1 H2 H3. discover. step H1. step H2.
  destruct (ec2.Tags i) as [|t ts] eqn:Ht; [contradiction|]. cbn [length Nat.eqb].
  destruct (String.eqb _ ""); reflexivity.
Qed.

End Discovery.

(** The four messages of the structural errors are pairwise different,
    whatever the instance identifier. *)
Lemma discovery_errors_distinct (instanceID : string) :
  let e1 := Errorf_s "no reservations found for instance_id=" instanceID in
  let e2 := Errorf_s "no instances found for instance_id=" instanceID in
  let e3 := Errorf_s "no tags found for instance_id=" instanceID in
  let e4 := Errorf_s
    "discovering cluster name: instance cluster tags not found for instance_id="
    instanceID in
  e1 <> e2 /\ e1 <> e3 /\ e1 <> e4 /\ e2 <> e3 /\ e2 <> e4 /\ e3 <> e4.
Proof. cbn. repeat split; discriminate. Qed.

(** C3. A discovering [GetClusterName] fails with its own error in each
    of these cases, tested in this order and before the tags are scanned:
    no reservation in the response, no instance in the first reservation,
    no tag on the first instance; and with tags present of which none is
    accepted, it fails with the "cluster tags not found" error, returning
    no name.  The four errors are pairwise different. *)
Theorem GetClusterName_structural_errors
  (env : Env) (ctx : Context) (c : client) (h : list call)
  (m : ec2metadata.EC2Metadata) (e : ec2.EC2)
  (instanceID : string) (resp : ec2.DescribeInstancesOutput) :
  clusterName c = None ->
  metaClient c = Some m ->
  ec2Client c = Some e ->
  GetMetadataWithContext env h ctx m "instance-id" = (instanceID, None) ->
  DescribeInstancesWithContext env (h ++ [GetMetadataCall m "instance-id"])
    ctx e (ec2.mkInput [] [Some instanceID]) = (Some resp, None) ->
  let fails (msg : string) :=
    GetClusterName env ctx (mkState c h) =
    (Returns (None, Some (Errorf (msg ++ instanceID))),
     mkState c (h ++ discoveryCalls m e instanceID)) in
  (ec2.Reservations resp = [] ->
   fails "no reservations found for instance_id=")
  /\ (forall r rs,
        ec2.Reservations resp = Some r :: rs ->
        ec2.Instances r = [] ->
        fails "no instances found for instance_id=")
  /\ (forall r rs i insts,
        ec2.Reservations resp = Some r :: rs ->
        ec2.Instances r = Some i :: insts ->
        ec2.Tags i = [] ->
        fails "no tags found for instance_id=")
  /\ (forall r rs i insts,
        ec2.Reservations resp = Some r :: rs ->
        ec2.Instances r = Some i :: insts ->
        ec2.Tags i <> [] ->
        Forall matchesNoRule (ec2.Tags i) ->
        fails "discovering cluster name: instance cluster tags not found for instance_id=")
  /\ (let e1 := Errorf ("no reservations found for instance_id=" ++ instanceID) in
      let e2 := Errorf ("no instances found for instance_id=" ++ instanceID) in
      let e3 := Errorf ("no tags found for instance_id=" ++ instanceID) in
      let e4 := Errorf
        ("discovering cluster name: instance cluster tags not found for instance_id="
         ++ instanceID) in
      e1 <> e2 /\ e1 <> e3 /\ e1 <> e4 /\ e2 <> e3 /\ e2 <> e4 /\ e3 <> e4).
Proof.
  intros Hc Hm He Hmeta Hdesc fails. subst fails. cbv beta.
  repeat apply conj.
  - intros H. eapply discovery_no_reservations; eassumption.
  - intros r rs H1 H2. eapply discovery_no_instances; eassumption.
  - intros r rs i insts H1 H2 H3. eapply discovery_no_tags; eassumption.
  - intros r rs i insts H1 H2 H3 Hno.
    erewrite discovery_tags by eassumption.
    now rewrite (getClusterName_no_match Hno).
  - apply discovery_errors_distinct.
  - apply discovery_errors_distinct.
  - apply discovery_errors_distinct.
  - apply discovery_errors_distinct.
  - apply discovery_errors_distinct.
  - apply discovery_errors_distinct.
Qed.

(** C3 on the mock: one discovery per case. *)
Lemma GetClusterName_structural_errors_witness :
  let run describe :=
    fst (GetClusterName (mockEnv (fun _ => true) (fun _ => true) describe) 0
           (mkState mockClient [])) in
  run (fun _ _ => (Some (ec2.mkOutput []), None))
    = Returns (None, Some (Errorf "no reservations found for instance_id=i-0abc"))
  /\ run (fun _ _ => (Some (ec2.mkOutput [Some (ec2.mkReservation [])]), None))
    = Returns (None, Some (Errorf "no instances found for instance_id=i-0abc"))
  /\ run (describeTags [])
    = Returns (None, Some (Errorf "no tags found for instance_id=i-0abc"))
  /\ run (describeTags [Some (ec2.mkTag (Some "Name") (Some "node-1"))])
    = Returns (None, Some (Errorf
        "discovering cluster name: instance cluster tags not found for instance_id=i-0abc")).
Proof.
  cbv zeta. repeat apply conj.
  - destruct (@GetClusterName_structural_errors
      (mockEnv (fun _ => true) (fun _ => true) (fun _ _ => (Some (ec2.mkOutput []), None)))
      0 mockClient [] mockMeta mockEC2 "i-0abc" (ec2.mkOutput [])
      eq_refl eq_refl eq_refl eq_refl eq_refl) as [H _].
    rewrite (H eq_refl). reflexivity.
  - destruct (@GetClusterName_structural_errors
      (mockEnv (fun _ => true) (fun _ => true)
         (fun _ _ => (Some (ec2.mkOutput [Some (ec2.mkReservation [])]), None)))
      0 mockClient [] mockMeta mockEC2 "i-0abc"
      (ec2.mkOutput [Some (ec2.mkReservation [])])
      eq_refl eq_refl eq_refl eq_refl eq_refl) as (_ & H & _).
    rewrite (H _ _ eq_refl eq_refl). reflexivity.
  - destruct (@GetClusterName_structural_errors
      (mockEnv (fun _ => true) (fun _ => true) (describeTags []))
      0 mockClient [] mockMeta mockEC2 "i-0abc"
      (ec2.mkOutput [Some (ec2.mkReservation [Some (ec2.mkInstance (Some "i-0abc") [])])])
      eq_refl eq_refl eq_refl eq_refl eq_refl) as (_ & _ & H & _).
    rewrite (H _ _ _ _ eq_refl eq_refl eq_refl). reflexivity.
  - destruct (@GetClusterName_structural_errors
      (mockEnv (fun _ => true) (fun _ => true)
         (describeTags [Some (ec2.mkTag (Some "Name") (Some "node-1"))]))
      0 mockClient [] mockMeta mockEC2 "i-0abc"
      (ec2.mkOutput [Some (ec2.mkReservation [Some (ec2.mkInstance (Some "i-0abc")
         [Some (ec2.mkTag (Some "Name") (Some "node-1"))])])])
      eq_refl eq_refl eq_refl eq_refl eq_refl) as (_ & _ & _ & H & _).
    rewrite (H _ _ _ _ eq_refl eq_refl).
    + reflexivity.
    + discriminate.
    + repeat constructor; cbn; try discriminate.
      intros prefix [<- | [<- | []]] [Hp _]; discriminate Hp.
Defined.

(** C9. When the first accepted tag of the discovered instance has a key
    that is exactly an ownership prefix and the value ["owned"], the
    stripped name is empty, and [GetClusterName] takes the empty answer of
    [getClusterName] for "no tag found": it fails with the "cluster tags
    not found" error and caches nothing. *)
Theorem GetClusterName_empty_suffix
  (env : Env) (ctx : Context) (c : client) (h : list call)
  (m : ec2metadata.EC2Metadata) (e : ec2.EC2)
  (instanceID : string) (resp : ec2.DescribeInstancesOutput)
  (r : ec2.Reservation) (rs : list (ptr ec2.Reservation))
  (i : ec2.Instance) (insts : list (ptr ec2.Instance))
  (pre post : list (ptr ec2.Tag)) (prefix : string) :
  clusterName c = None ->
  metaClient c = Some m ->
  ec2Client c = Some e ->
  GetMetadataWithContext env h ctx m "instance-id" = (instanceID, None) ->
  DescribeInstancesWithContext env (h ++ [GetMetadataCall m "instance-id"])
    ctx e (ec2.mkInput [] [Some instanceID]) = (Some resp, None) ->
  ec2.Reservations resp = Some r :: rs ->
  ec2.Instances r = Some i :: insts ->
  prefix = "k8s.io/cluster/" \/ prefix = "kubernetes.io/cluster/" ->
  Forall matchesNoRule pre ->
  ec2.Tags i = pre ++ Some (ec2.mkTag (Some prefix) (Some "owned")) :: post ->
  getClusterName (ec2.Tags i) = ""
  /\ GetClusterName env ctx (mkState c h) =
     (Returns (None, Some (Errorf
        ("discovering cluster name: instance cluster tags not found for instance_id="
         ++ instanceID))),
      mkState c (h ++ discoveryCalls m e instanceID)).
Proof.
  intros Hc Hm He Hmeta Hdesc H1 H2 Hp Hpre Ht.
  assert (Hname : getClusterName (ec2.Tags i) = "").
  { rewrite Ht, (getClusterName_skip _ Hpre).
    destruct Hp as [-> | ->]; reflexivity. }
  split; [exact Hname|].
  erewrite discovery_tags; try eassumption.
  - now rewrite Hname.
  - rewrite Ht. now destruct pre.
Qed.

(** C9 on the mock: a single tag ["k8s.io/cluster/" = "owned"]. *)
Lemma GetClusterName_empty_suffix_witness :
  GetClusterName
    (mockEnv (fun _ => true) (fun _ => true)
       (describeTags [Some (ec2.mkTag (Some "k8s.io/cluster/") (Some "owned"))]))
    0 (mkState mockClient [])
  = (Returns (None, Some (Errorf
       "discovering cluster name: instance cluster tags not found for instance_id=i-0abc")),
     mkState mockClient (discoveryCalls mockMeta mockEC2 "i-0abc")).
Proof.
  exact (proj2 (@GetClusterName_empty_suffix
    (mockEnv (fun _ => true) (fun _ => true)
       (describeTags [Some (ec2.mkTag (Some "k8s.io/cluster/") (Some "owned"))]))
    0 mockClient [] mockMeta mockEC2 "i-0abc" _ _ [] _ []
    [] [] "k8s.io/cluster/"
    eq_refl eq_refl eq_refl eq_refl eq_refl eq_refl eq_refl
    (or_introl eq_refl) (Forall_nil _) eq_refl)).
Defined.

(** ** Construction *)

Lemma applyOpts_ok (ctx : Context) (opts : list Opt) (s s' : State) :
  stepsOk ctx opts s s' ->
  applyOpts ctx opts s = (Returns None, s').
Proof.
  induction 1 as [s | opt rest s s1 s2 Hopt _ IH]; [reflexivity|].
  cbn [applyOpts]. unfold bind. now rewrite Hopt.
Qed.

Lemma applyOpts_app (ctx : Context) (pre rest : list Opt) (s s1 : State) :
  stepsOk ctx pre s s1 ->
  applyOpts ctx (pre ++ rest) s = applyOpts ctx rest s1.
Proof.
  induction 1 as [s | opt pre s s1 s2 Hopt _ IH]; [reflexivity|].
  cbn [app applyOpts]. unfold bind. now rewrite Hopt.
Qed.

(** C6. [New] runs the steps in order from a fresh client that has only
    its logger set.  When all of them return nil it returns the client
    they built; when a step returns an error after its predecessors
    returned nil, [New] returns that error and no client, and the outcome
    does not depend on the steps after the failing one: they are not
    run. *)
Theorem New_fail_fast (ctx : Context) (lg : FieldLogger) (h : list call) :
  let fresh := mkState (mkClient lg None None None None None None) h in
  (forall opts s,
      stepsOk ctx opts fresh s ->
      New ctx lg opts h = (Returns (Some (this s), None), history s))
  /\ (forall pre opt post s1 s2 err,
        stepsOk ctx pre fresh s1 ->
        opt ctx s1 = (Returns (Some err), s2) ->
        New ctx lg (pre ++ opt :: post) h
          = (Returns (None, Some err), history s2)
        /\ New ctx lg (pre ++ opt :: post) h = New ctx lg (pre ++ [opt]) h).
Proof.
  intros fresh. split.
  - intros opts s H. unfold New. fold fresh.
    now rewrite (applyOpts_ok H).
  - intros pre opt post s1 s2 err Hpre Hopt.
    assert (Hrun : forall rest,
               applyOpts ctx (pre ++ opt :: rest) fresh = (Returns (Some err), s2)).
    { intros rest. rewrite (applyOpts_app _ Hpre).
      cbn [applyOpts]. unfold bind. now rewrite Hopt. }
    unfold New. fold fresh. now rewrite !Hrun.
Qed.

(** C6 on three steps: static metadata, then an EC2 client whose session
    cannot be opened, then metadata discovery.  The only call made is the
    second step's; the session and the region lookup of the third step
    never happen. *)
Lemma New_fail_fast_witness :
  let env := mockEnv (fun _ => false) (fun _ => true) (describeTags []) in
  New 0 7
    [WithMetadata "123456789012" "eu-west-1" "prod";
     WithEC2Client env;
     WithMetadataDiscovery env] []
  = (Returns (None, Some (WrapError
       "creating aws sdk session: session: no credentials"
       (SdkError "session: no credentials"))),
     [NewSessionCall [aws.mkConfig (Some "eu-west-1") (Some true)]]).
Proof.
  intros env.
  pose (c1 := mkClient 7 None None None
                (Some "eu-west-1") (Some "123456789012") (Some "prod")).
  refine (proj1 (proj2 (@New_fail_fast 0 7 [])
    [WithMetadata "123456789012" "eu-west-1" "prod"]
    (WithEC2Client env) [WithMetadataDiscovery env]
    (mkState c1 [])
    (mkState c1 [NewSessionCall [aws.mkConfig (Some "eu-west-1") (Some true)]])
    _ _ _)).
  - eapply stepsOk_cons; [reflexivity | apply stepsOk_nil].
  - reflexivity.
Defined.

(** ** The EC2-client step *)

(** C4, as stated, fails: on a client without a region the step returns no
    error.  It panics on [*c.region], before any session is opened. *)
Lemma WithEC2Client_unset_region_counterexample :
  let env := mockEnv (fun _ => true) (fun _ => true) (describeTags []) in
  let c := mkClient 7 None None None None None None in
  region c = None
  /\ WithEC2Client env 0 (mkState c []) = (Panics, mkState c [])
  /\ ~ (exists err s', WithEC2Client env 0 (mkState c []) = (Returns (Some err), s')).
Proof.
  cbv zeta. split; [reflexivity|]. split; [reflexivity|].
  intros (err & s' & H). discriminate H.
Qed.

(** C4, amended. On a client whose region is unset [WithEC2Client] returns
    nothing: it panics on the nil region, with no call made and the client
    untouched.  On a client whose region is set it opens one session with
    that region; it returns an error, the wrapped session error, exactly
    when opening the session fails, and otherwise stores the session and
    the EC2 client built on it. *)
Theorem WithEC2Client_region (env : Env) (ctx : Context) (c : client)
  (h : list call) :
  (region c = None ->
   WithEC2Client env ctx (mkState c h) = (Panics, mkState c h))
  /\ (forall r sess err,
        region c = Some r ->
        session_NewSession env h (ec2SessionConfig r) = (sess, Some err) ->
        WithEC2Client env ctx (mkState c h)
        = (Returns (Some (Errorf_w "creating aws sdk session: " err)),
           mkState c (h ++ [NewSessionCall (ec2SessionConfig r)])))
  /\ (forall r s,
        region c = Some r ->
        session_NewSession env h (ec2SessionConfig r) = (Some s, None) ->
        WithEC2Client env ctx (mkState c h)
        = (Returns None,
           mkState (with_ec2Client (Some (ec2.New s)) (with_sess (Some s) c))
                   (h ++ [NewSessionCall (ec2SessionConfig r)]))).
Proof.
  repeat apply conj.
  - intros Hr. unfold WithEC2Client, bind, get_client, deref, panic. cbn.
    now rewrite Hr.
  - intros r sess err Hr Hs.
    unfold WithEC2Client, bind, get_client, deref, NewSession, remote, ret. cbn.
    rewrite Hr. cbn. fold (ec2SessionConfig r). now rewrite Hs.
  - intros r s Hr Hs.
    unfold WithEC2Client, bind, get_client, deref, NewSession, remote, ret,
      update. cbn.
    rewrite Hr. cbn. fold (ec2SessionConfig r). now rewrite Hs.
Qed.

(** The amended C4 on the mock: a client without a region, and a client
    with a region whose session cannot be opened. *)
Lemma WithEC2Client_region_witness :
  let c := mkClient 7 None None None None None None in
  WithEC2Client (mockEnv (fun _ => true) (fun _ => true) (describeTags []))
    0 (mkState c []) = (Panics, mkState c [])
  /\ WithEC2Client (mockEnv (fun _ => false) (fun _ => true) (describeTags []))
       0 (mkState (with_region (Some "eu-west-1") c) [])
     = (Returns (Some (WrapError
          "creating aws sdk session: session: no credentials"
          (SdkError "session: no credentials"))),
        mkState (with_region (Some "eu-west-1") c)
          [NewSessionCall [aws.mkConfig (Some "eu-west-1") (Some true)]]).
Proof.
  intros c. split.
  - exact (proj1 (@WithEC2Client_region
      (mockEnv (fun _ => true) (fun _ => true) (describeTags [])) 0 c [])
      eq_refl).
  - exact (proj1 (proj2 (@WithEC2Client_region
      (mockEnv (fun _ => false) (fun _ => true) (describeTags [])) 0
      (with_region (Some "eu-west-1") c) []))
      "eu-west-1" None (SdkError "session: no credentials") eq_refl eq_refl).
Defined.

(** ** The memoising getters *)

Section Getters.

Variables (env : Env) (ctx : Context).

(** A getter whose field is set answers from the field alone. *)
Lemma GetRegion_cached (c : client) (h : list call) (v : string) :
  region c = Some v ->
  GetRegion env ctx (mkState c h) = (Returns (Some v, None), mkState c h).
Proof. intros H. run_getter. now step H. Qed.

Lemma GetAccountID_cached (c : client) (h : list call) (v : string) :
  accountID c = Some v ->
  GetAccountID env ctx (mkState c h) = (Returns (Some v, None), mkState c h).
Proof. intros H. run_getter. now step H. Qed.

Lemma GetClusterName_cached (c : client) (h : list call) (v : string) :
  clusterName c = Some v ->
  GetClusterName env ctx (mkState c h) = (Returns (Some v, None), mkState c h).
Proof. intros H. run_getter. now step H. Qed.

(** A getter that returns no error returns a value, has that value in
    its field afterwards, and has made no call or the calls of one
    lookup. *)
Lemma GetRegion_returns (s s1 : State) (p : ptr string) :
  GetRegion env ctx s = (Returns (p, None), s1) ->
  (exists v, p = Some v /\ region (this s1) = Some v)
  /\ (history s1 = history s
      \/ exists m, history s1 = history s ++ [RegionCall m]).
Proof.
  destruct s as [c h]. run_getter.
  destruct (region c) as [r|] eqn:Hr; cbn.
  - intros [= <- <-]. cbn. split; [exists r; auto | auto].
  - destruct (metaClient c) as [m|]; cbn; [|discriminate].
    destruct (RegionWithContext env h ctx m) as [r [err|]]; cbn.
    + discriminate.
    + intros [= <- <-]. cbn. split; [eexists; split; reflexivity | eauto].
Qed.

Lemma GetAccountID_returns (s s1 : State) (p : ptr string) :
  GetAccountID env ctx s = (Returns (p, None), s1) ->
  (exists v, p = Some v /\ accountID (this s1) = Some v)
  /\ (history s1 = history s
      \/ exists m, history s1 = history s ++ [IdentityDocumentCall m]).
Proof.
  destruct s as [c h]. run_getter.
  destruct (accountID c) as [r|] eqn:Hr; cbn.
  - intros [= <- <-]. cbn. split; [exists r; auto | auto].
  - destruct (metaClient c) as [m|]; cbn; [|discriminate].
    destruct (GetInstanceIdentityDocumentWithContext env h ctx m)
      as [r [err|]]; cbn.
    + discriminate.
    + intros [= <- <-]. cbn. split; [eexists; split; reflexivity | eauto].
Qed.

Lemma GetClusterName_returns (s s1 : State) (p : ptr string) :
  GetClusterName env ctx s = (Returns (p, None), s1) ->
  (exists v, p = Some v /\ clusterName (this s1) = Some v)
  /\ (history s1 = history s
      \/ exists m e instanceID,
           history s1 = history s ++ discoveryCalls m e instanceID).
Proof.
  destruct s as [c h]. run_getter.
  destruct (clusterName c) as [r|] eqn:Hr; cbn.
  - intros [= <- <-]. cbn. split; [exists r; auto | auto].
  - destruct (metaClient c) as [m|]; cbn; [|discriminate].
    destruct (GetMetadataWithContext env h ctx m "instance-id")
      as [instanceID [err|]]; cbn; [discriminate|].
    destruct (ec2Client c) as [e|]; cbn; [|discriminate].
    destruct (DescribeInstancesWithContext _ _ _ _ _) as [resp [err|]]; cbn;
      [discriminate|].
    destruct resp as [resp|]; cbn; [|discriminate].
    destruct (ec2.Reservations resp) as [|[r|] rs]; cbn; try discriminate.
    destruct (ec2.Instances r) as [|[i|] insts]; cbn; try discriminate.
    destruct (ec2.Tags i) as [|t ts] eqn:Ht; cbn [length Nat.eqb]; [discriminate|].
    destruct (String.eqb _ ""); cbn; [discriminate|].
    intros [= <- <-]. cbn [this history]. rewrite <- app_assoc.
    split; [eexists; split; reflexivity|].
    right. exists m, e, instanceID. reflexivity.
Qed.

(** A getter that returns an error returns no value and leaves the
    client as it was. *)
Lemma GetRegion_error_unchanged (s s1 : State) (p : ptr string) (err : error) :
  GetRegion env ctx s = (Returns (p, Some err), s1) ->
  p = None /\ this s1 = this s.
Proof.
  destruct s as [c h]. run_getter.
  destruct (region c) as [r|] eqn:Hr; cbn; [discriminate|].
  destruct (metaClient c) as [m|]; cbn; [|discriminate].
  destruct (RegionWithContext env h ctx m) as [r [e|]]; cbn.
  - intros [= <- _ <-]. auto.
  - discriminate.
Qed.

Lemma GetAccountID_error_unchanged (s s1 : State) (p : ptr string) (err : error) :
  GetAccountID env ctx s = (Returns (p, Some err), s1) ->
  p = None /\ this s1 = this s.
Proof.
  destruct s as [c h]. run_getter.
  destruct (accountID c) as [r|] eqn:Hr; cbn; [discriminate|].
  destruct (metaClient c) as [m|]; cbn; [|discriminate].
  destruct (GetInstanceIdentityDocumentWithContext env h ctx m)
    as [r [e|]]; cbn.
  - intros [= <- _ <-]. auto.
  - discriminate.
Qed.

Lemma GetClusterName_error_unchanged (s s1 : State) (p : ptr string) (err : error) :
  GetClusterName env ctx s = (Returns (p, Some err), s1) ->
  p = None /\ this s1 = this s.
Proof.
  destruct s as [c h]. run_getter.
  destruct (clusterName c) as [r|] eqn:Hr; cbn; [discriminate|].
  destruct (metaClient c) as [m|]; cbn; [|discriminate].
  destruct (GetMetadataWithContext env h ctx m "instance-id")
    as [instanceID [e0|]]; cbn; [intros [= <- _ <-]; auto|].
  destruct (ec2Client c) as [e|]; cbn; [|discriminate].
  destruct (DescribeInstancesWithContext _ _ _ _ _) as [resp [e0|]]; cbn;
    [intros [= <- _ <-]; auto|].
  destruct resp as [resp|]; cbn; [|discriminate].
  destruct (ec2.Reservations resp) as [|[r|] rs]; cbn; try discriminate;
    [intros [= <- _ <-]; auto|].
  destruct (ec2.Instances r) as [|[i|] insts]; cbn; try discriminate;
    [intros [= <- _ <-]; auto|].
  destruct (ec2.Tags i) as [|t ts] eqn:Ht; cbn [length Nat.eqb];
    [intros [= <- _ <-]; auto|].
  destruct (String.eqb _ ""); cbn; [intros [= <- _ <-]; auto|discriminate].
Qed.

(** A getter whose field is unset and whose metadata client is
    configured begins with the metadata call of its lookup. *)
Lemma GetRegion_unset (c : client) (h : list call)
  (m : ec2metadata.EC2Metadata) :
  region c = None -> metaClient c = Some m ->
  GetRegion env ctx (mkState c h) =
  match RegionWithContext env h ctx m with
  | (_, Some err) =>
      (Returns (None, Some err), mkState c (h ++ [RegionCall m]))
  | (r, None) =>
      (Returns (Some r, None),
       mkState (with_region (Some r) c) (h ++ [RegionCall m]))
  end.
Proof.
  intros Hr Hm. run_getter. step Hr. step Hm.
  now destruct (RegionWithContext env h ctx m) as [r [err|]].
Qed.

Lemma GetAccountID_unset (c : client) (h : list call)
  (m : ec2metadata.EC2Metadata) :
  accountID c = None -> metaClient c = Some m ->
  GetAccountID env ctx (mkState c h) =
  match GetInstanceIdentityDocumentWithContext env h ctx m with
  | (_, Some err) =>
      (Returns (None, Some err), mkState c (h ++ [IdentityDocumentCall m]))
  | (resp, None) =>
      (Returns (Some (ec2metadata.AccountID resp), None),
       mkState (with_accountID (Some (ec2metadata.AccountID resp)) c)
               (h ++ [IdentityDocumentCall m]))
  end.
Proof.
  intros Hr Hm. run_getter. step Hr. step Hm.
  now destruct (GetInstanceIdentityDocumentWithContext env h ctx m)
    as [r [err|]].
Qed.

Lemma GetClusterName_unset (c : client) (h : list call)
  (m : ec2metadata.EC2Metadata) :
  clusterName c = None -> metaClient c = Some m ->
  exists tail,
    history (snd (GetClusterName env ctx (mkState c h)))
    = h ++ GetMetadataCall m "instance-id" :: tail.
Proof.
  intros Hr Hm. run_getter. step Hr. step Hm.
  destruct (GetMetadataWithContext env h ctx m "instance-id")
    as [instanceID [e0|]]; cbn; [now exists []|].
  destruct (ec2Client c) as [e|]; cbn; [|now exists []].
  exists [DescribeInstancesCall e (ec2.mkInput [] [Some instanceID])].
  destruct (DescribeInstancesWithContext _ _ _ _ _) as [resp [e0|]]; cbn;
    [now rewrite <- app_assoc|].
  destruct resp as [resp|]; cbn; [|now rewrite <- app_assoc].
  destruct (ec2.Reservations resp) as [|[r|] rs]; cbn;
    try now rewrite <- app_assoc.
  destruct (ec2.Instances r) as [|[i|] insts]; cbn;
    try now rewrite <- app_assoc.
  destruct (ec2.Tags i) as [|t ts] eqn:Ht; cbn [length Nat.eqb];
    [now rewrite <- app_assoc|].
  destruct (String.eqb _ ""); cbn; now rewrite <- app_assoc.
Qed.

(** The two ways the remote calls of a cluster-name lookup fail. *)
Lemma GetClusterName_metadata_error (c : client) (h : list call)
  (m : ec2metadata.EC2Metadata) (instanceID : string) (err : error) :
  clusterName c = None -> metaClient c = Some m ->
  GetMetadataWithContext env h ctx m "instance-id" = (instanceID, Some err) ->
  GetClusterName env ctx (mkState c h) =
  (Returns (None, Some (Errorf_w "getting instance id from metadata: " err)),
   mkState c (h ++ [GetMetadataCall m "instance-id"])).
Proof. intros Hr Hm H. run_getter. step Hr. step Hm. now step H. Qed.

Lemma GetClusterName_describe_error (c : client) (h : list call)
  (m : ec2metadata.EC2Metadata) (e : ec2.EC2) (instanceID : string)
  (resp : ptr ec2.DescribeInstancesOutput) (err : error) :
  clusterName c = None -> metaClient c = Some m -> ec2Client c = Some e ->
  GetMetadataWithContext env h ctx m "instance-id" = (instanceID, None) ->
  DescribeInstancesWithContext env (h ++ [GetMetadataCall m "instance-id"])
    ctx e (ec2.mkInput [] [Some instanceID]) = (resp, Some err) ->
  GetClusterName env ctx (mkState c h) =
  (Returns (None, Some (Errorf_w
     ("describing instance_id=" ++ instanceID ++ ": ") err)),
   mkState c (h ++ discoveryCalls m e instanceID)).
Proof.
  intros Hr Hm He H1 H2. run_getter. step Hr. step Hm. step H1. step He.
  step H2. now rewrite <- app_assoc.
Qed.

End Getters.

(** C5. Each of [GetRegion], [GetAccountID] and [GetClusterName] answers
    from its field when the field is set, making no call and changing
    nothing.  Hence, when a call of a getter returns a value, calling it
    again at once returns the same value with no further call, and the two
    calls together have made the calls of at most one lookup. *)
Theorem getters_memoise (env : Env) (ctx : Context) :
  (forall c h v, region c = Some v ->
     GetRegion env ctx (mkState c h) = (Returns (Some v, None), mkState c h))
  /\ (forall c h v, accountID c = Some v ->
     GetAccountID env ctx (mkState c h) = (Returns (Some v, None), mkState c h))
  /\ (forall c h v, clusterName c = Some v ->
     GetClusterName env ctx (mkState c h) = (Returns (Some v, None), mkState c h))
  /\ (forall s p s1,
        GetRegion env ctx s = (Returns (p, None), s1) ->
        GetRegion env ctx s1 = (Returns (p, None), s1)
        /\ (history s1 = history s
            \/ exists m, history s1 = history s ++ [RegionCall m]))
  /\ (forall s p s1,
        GetAccountID env ctx s = (Returns (p, None), s1) ->
        GetAccountID env ctx s1 = (Returns (p, None), s1)
        /\ (history s1 = history s
            \/ exists m, history s1 = history s ++ [IdentityDocumentCall m]))
  /\ (forall s p s1,
        GetClusterName env ctx s = (Returns (p, None), s1) ->
        GetClusterName env ctx s1 = (Returns (p, None), s1)
        /\ (history s1 = history s
            \/ exists m e instanceID,
                 history s1 = history s ++ discoveryCalls m e instanceID)).
Proof.
  repeat apply conj.
  - apply GetRegion_cached.
  - apply GetAccountID_cached.
  - apply GetClusterName_cached.
  - intros s p s1 H.
    destruct (GetRegion_returns _ _ _ H) as [(v & -> & Hv) Hh].
    split; [|exact Hh]. destruct s1 as [c1 h1]. now apply GetRegion_cached.
  - intros s p s1 H.
    destruct (GetAccountID_returns _ _ _ H) as [(v & -> & Hv) Hh].
    split; [|exact Hh]. destruct s1 as [c1 h1]. now apply GetAccountID_cached.
  - intros s p s1 H.
    destruct (GetClusterName_returns _ _ _ H) as [(v & -> & Hv) Hh].
    split; [|exact Hh]. destruct s1 as [c1 h1]. now apply GetClusterName_cached.
Qed.

(** C5 on the mock: each getter called twice on a client with nothing
    cached.  The history after the second call is that of one lookup. *)
Lemma getters_memoise_witness :
  let env := mockEnv (fun _ => true) (fun _ => true) describeProd in
  let s0 := mkState mockClient [] in
  (let s1 := snd (GetRegion env 0 s0) in
   GetRegion env 0 s1 = (Returns (Some "eu-west-1", None), s1)
   /\ history s1 = [RegionCall mockMeta])
  /\ (let s1 := snd (GetAccountID env 0 s0) in
      GetAccountID env 0 s1 = (Returns (Some "123456789012", None), s1)
      /\ history s1 = [IdentityDocumentCall mockMeta])
  /\ (let s1 := snd (GetClusterName env 0 s0) in
      GetClusterName env 0 s1 = (Returns (Some "prod", None), s1)
      /\ history s1 = discoveryCalls mockMeta mockEC2 "i-0abc").
Proof.
  intros env s0.
  destruct (getters_memoise env 0) as (_ & _ & _ & Hr & Ha & Hc).
  repeat apply conj.
  - exact (proj1 (Hr s0 (Some "eu-west-1") (snd (GetRegion env 0 s0)) eq_refl)).
  - reflexivity.
  - exact (proj1 (Ha s0 (Some "123456789012") (snd (GetAccountID env 0 s0)) eq_refl)).
  - reflexivity.
  - exact (proj1 (Hc s0 (Some "prod") (snd (GetClusterName env 0 s0)) eq_refl)).
  - reflexivity.
Defined.

(** C10. A getter whose remote call fails returns the error (for the
    cluster name, wrapped in the message of the failing step) and no
    value, and leaves the client as it was, the field still unset; the
    next call of the same getter makes the remote call again, and returns
    the value that call gives.  More generally no getter that returns an
    error changes the client. *)
Theorem getters_retry_after_error (env : Env) (ctx : Context) (c : client)
  (h : list call) (m : ec2metadata.EC2Metadata) :
  metaClient c = Some m ->
  (forall r err,
      region c = None ->
      RegionWithContext env h ctx m = (r, Some err) ->
      let s1 := mkState c (h ++ [RegionCall m]) in
      GetRegion env ctx (mkState c h) = (Returns (None, Some err), s1)
      /\ history (snd (GetRegion env ctx s1)) = h ++ [RegionCall m; RegionCall m]
      /\ forall r2,
           RegionWithContext env (h ++ [RegionCall m]) ctx m = (r2, None) ->
           fst (GetRegion env ctx s1) = Returns (Some r2, None))
  /\ (forall doc err,
        accountID c = None ->
        GetInstanceIdentityDocumentWithContext env h ctx m = (doc, Some err) ->
        let s1 := mkState c (h ++ [IdentityDocumentCall m]) in
        GetAccountID env ctx (mkState c h) = (Returns (None, Some err), s1)
        /\ history (snd (GetAccountID env ctx s1))
           = h ++ [IdentityDocumentCall m; IdentityDocumentCall m]
        /\ forall doc2,
             GetInstanceIdentityDocumentWithContext env
               (h ++ [IdentityDocumentCall m]) ctx m = (doc2, None) ->
             fst (GetAccountID env ctx s1)
             = Returns (Some (ec2metadata.AccountID doc2), None))
  /\ (forall instanceID err,
        clusterName c = None ->
        GetMetadataWithContext env h ctx m "instance-id" = (instanceID, Some err) ->
        let s1 := mkState c (h ++ [GetMetadataCall m "instance-id"]) in
        GetClusterName env ctx (mkState c h)
        = (Returns (None, Some (WrapError
             ("getting instance id from metadata: " ++ ErrorString err) err)), s1)
        /\ exists tail,
             history (snd (GetClusterName env ctx s1))
             = history s1 ++ GetMetadataCall m "instance-id" :: tail)
  /\ (forall e instanceID resp err,
        clusterName c = None ->
        ec2Client c = Some e ->
        GetMetadataWithContext env h ctx m "instance-id" = (instanceID, None) ->
        DescribeInstancesWithContext env (h ++ [GetMetadataCall m "instance-id"])
          ctx e (ec2.mkInput [] [Some instanceID]) = (resp, Some err) ->
        let s1 := mkState c (h ++ discoveryCalls m e instanceID) in
        GetClusterName env ctx (mkState c h)
        = (Returns (None, Some (WrapError
             (("describing instance_id=" ++ instanceID ++ ": ") ++ ErrorString err)
             err)), s1)
        /\ exists tail,
             history (snd (GetClusterName env ctx s1))
             = history s1 ++ GetMetadataCall m "instance-id" :: tail)
  /\ (forall s p err s1,
        GetRegion env ctx s = (Returns (p, Some err), s1)
        \/ GetAccountID env ctx s = (Returns (p, Some err), s1)
        \/ GetClusterName env ctx s = (Returns (p, Some err), s1) ->
        p = None /\ this s1 = this s).
Proof.
  intros Hm. repeat apply conj.
  - intros r err Hr H s1. subst s1.
    rewrite !(GetRegion_unset env ctx _ _ Hr Hm), H.
    split; [reflexivity|]. split.
    + destruct (RegionWithContext env (h ++ [RegionCall m]) ctx m) as [r2 [e2|]];
        cbn; now rewrite <- app_assoc.
    + intros r2 H2. now rewrite H2.
  - intros doc err Hr H s1. subst s1.
    rewrite !(GetAccountID_unset env ctx _ _ Hr Hm), H.
    split; [reflexivity|]. split.
    + destruct (GetInstanceIdentityDocumentWithContext env
                  (h ++ [IdentityDocumentCall m]) ctx m) as [r2 [e2|]];
        cbn; now rewrite <- app_assoc.
    + intros doc2 H2. now rewrite H2.
  - intros instanceID err Hr H s1. subst s1. split.
    + eapply GetClusterName_metadata_error; eassumption.
    + now apply GetClusterName_unset.
  - intros e instanceID resp err Hr He H1 H2 s1. subst s1. split.
    + eapply GetClusterName_describe_error; eassumption.
    + now apply GetClusterName_unset.
  - intros s p err s1 [H | [H | H]].
    + eapply GetRegion_error_unchanged; eassumption.
    + eapply GetAccountID_error_unchanged; eassumption.
    + eapply GetClusterName_error_unchanged; eassumption.
Qed.

(** C10 on the mock: a metadata service that fails on the first call made
    to it and answers from then on, and an EC2 API that fails. *)
Lemma getters_retry_after_error_witness :
  let flaky (h : list call) := negb (Nat.eqb (List.length h) 0) in
  let env := mockEnv (fun _ => true) flaky describeProd in
  let down := SdkError "metadata: request failed" in
  (let s1 := mkState mockClient [RegionCall mockMeta] in
   GetRegion env 0 (mkState mockClient []) = (Returns (None, Some down), s1)
   /\ fst (GetRegion env 0 s1) = Returns (Some "eu-west-1", None))
  /\ (let s1 := mkState mockClient [IdentityDocumentCall mockMeta] in
      GetAccountID env 0 (mkState mockClient []) = (Returns (None, Some down), s1)
      /\ fst (GetAccountID env 0 s1) = Returns (Some "123456789012", None))
  /\ GetClusterName env 0 (mkState mockClient [])
     = (Returns (None, Some (WrapError
          "getting instance id from metadata: metadata: request failed" down)),
        mkState mockClient [GetMetadataCall mockMeta "instance-id"])
  /\ GetClusterName
       (mockEnv (fun _ => true) (fun _ => true)
          (fun _ _ => (None, Some (SdkError "ec2: throttled"))))
       0 (mkState mockClient [])
     = (Returns (None, Some (WrapError
          "describing instance_id=i-0abc: ec2: throttled"
          (SdkError "ec2: throttled"))),
        mkState mockClient (discoveryCalls mockMeta mockEC2 "i-0abc")).
Proof.
  intros flaky env down.
  destruct (@getters_retry_after_error env 0 mockClient [] mockMeta eq_refl)
    as (Hr & Ha & Hc & _).
  destruct (@getters_retry_after_error
              (mockEnv (fun _ => true) (fun _ => true)
                 (fun _ _ => (None, Some (SdkError "ec2: throttled"))))
              0 mockClient [] mockMeta eq_refl)
    as (_ & _ & _ & Hd & _).
  repeat apply conj.
  - exact (proj1 (Hr "" down eq_refl eq_refl)).
  - exact (proj2 (proj2 (Hr "" down eq_refl eq_refl)) "eu-west-1" eq_refl).
  - exact (proj1 (Ha (ec2metadata.mkDocument "") down eq_refl eq_refl)).
  - exact (proj2 (proj2 (Ha (ec2metadata.mkDocument "") down eq_refl eq_refl))
             (ec2metadata.mkDocument "123456789012") eq_refl).
  - exact (proj1 (Hc "" down eq_refl eq_refl)).
  - exact (proj1 (Hd mockEC2 "i-0abc" None (SdkError "ec2: throttled")
                    eq_refl eq_refl eq_refl eq_refl)).
Defined.

(** ** The batched lookup *)

Lemma slice_batch {A : Type} (l : list A) (i : nat) :
  slice l i (Nat.min (i + batchSize) (List.length l))
  = firstn batchSize (skipn i l).
Proof.
  unfold slice.
  destruct (Nat.le_ge_cases (i + batchSize) (List.length l)) as [H | H].
  - rewrite Nat.min_l by exact H. f_equal. lia.
  - rewrite Nat.min_r by exact H.
    rewrite !firstn_all2; try reflexivity; rewrite length_skipn; lia.
Qed.

Lemma chunks_step {A : Type} (n : nat) (l : list A) :
  0 < n -> l <> [] ->
  chunks n l = firstn n l :: chunks n (skipn n l).
Proof.
  destruct n as [|k]; [lia|]. destruct l as [|x l]; [contradiction|].
  intros _ _. now simp chunks.
Qed.

Lemma chunks_nil {A : Type} (n : nat) : chunks n (@nil A) = [].
Proof. destruct n; now simp chunks. Qed.

(** The index loop of the source walks the chunks. *)
Lemma batchLoop_chunks (env : Env) (ctx : Context) (idsPtr : list (ptr string))
  (i : nat) (instances : list (ptr ec2.Instance)) (s : State) :
  batchLoop env ctx idsPtr i instances s
  = forEachChunk env ctx (chunks batchSize (skipn i idsPtr)) instances s.
Proof.
  funelim (batchLoop env ctx idsPtr i instances s).
  - rewrite chunks_step.
    2:{ unfold batchSize. lia. }
    2:{ intros E. apply (f_equal (@List.length _)) in E.
        rewrite length_skipn in E. cbn in E. lia. }
    cbn [forEachChunk].
    unfold describeBatch. rewrite slice_batch.
    destruct (bind _ _ s) as [[[[resp|] [err|]]|] s1]; try reflexivity.
    destruct (appendReservations _ _ s1) as [[instances'|] s2]; try reflexivity.
    rewrite skipn_skipn, (Nat.add_comm batchSize i).
    exact (H Panics s (None, None) None None resp Panics s2 instances').
  - rewrite skipn_all2 by lia. now rewrite chunks_nil.
Qed.

(** *** The chunks *)

Lemma chunks_eq_nil {A : Type} (n : nat) (l : list A) :
  0 < n -> chunks n l = [] -> l = [].
Proof.
  intros Hn H. destruct l as [|x l]; [reflexivity|].
  rewrite chunks_step in H by (auto; discriminate). discriminate.
Qed.

Lemma chunks_concat {A : Type} (n : nat) (l : list A) :
  0 < n -> List.concat (chunks n l) = l.
Proof.
  intros Hn. funelim (chunks n l); try lia; [reflexivity|].
  cbn [List.concat]. rewrite H by lia. cbn. now rewrite firstn_skipn.
Qed.

Lemma chunks_bounds {A : Type} (n : nat) (l : list A) :
  Forall (fun b => 1 <= List.length b <= n) (chunks n l).
Proof.
  funelim (chunks n l); constructor; auto.
  cbn [List.length]. rewrite length_firstn. lia.
Qed.

Lemma chunks_full {A : Type} (n : nat) (l : list A) pre last :
  chunks n l = pre ++ [last] ->
  Forall (fun b => List.length b = n) pre.
Proof.
  revert pre. funelim (chunks n l); intros pre E.
  - now destruct pre.
  - now destruct pre.
  - destruct pre as [|p pre]; [constructor|].
    cbn [app] in E. injection E as <- E. constructor.
    + assert (Hne : skipn k l <> []).
      { intros Hnil. rewrite Hnil, chunks_nil in E. now destruct pre. }
      assert (k < List.length l).
      { destruct (Nat.lt_ge_cases k (List.length l)) as [Hlt|Hge]; [exact Hlt|].
        now rewrite skipn_all2 in Hne. }
      cbn [List.length]. rewrite length_firstn. lia.
    + eapply H. exact E.
Qed.

Lemma chunks_lengths {A B : Type} (n : nat) (l : list A) (l' : list B) :
  List.length l = List.length l' ->
  map (@List.length A) (chunks n l) = map (@List.length B) (chunks n l').
Proof.
  revert l'. funelim (chunks n l); intros l' E.
  - now simp chunks.
  - destruct l'; [|discriminate]. now simp chunks.
  - destruct l' as [|y l']; [discriminate|]. simp chunks. cbn [map List.length].
    injection E as E. rewrite !length_firstn, E. f_equal.
    apply H. now rewrite !length_skipn, E.
Qed.

Lemma chunks_45 {A : Type} (l : list A) :
  List.length l = 45 -> map (@List.length A) (chunks batchSize l) = [20; 20; 5].
Proof.
  intros H.
  rewrite (@chunks_lengths A unit batchSize l (repeat tt 45)).
  - reflexivity.
  - now rewrite repeat_length.
Qed.

(** *** Running over the chunks *)

Lemma appendReservations_ok (rs : list (ptr ec2.Reservation))
  (instances : list (ptr ec2.Instance)) (s : State) :
  Forall (fun r => r <> None) rs ->
  appendReservations instances rs s
  = (Returns (instances ++ flat_map reservationInstances rs), s).
Proof.
  intros H. revert instances.
  induction H as [| r rs Hr _ IH]; intros instances; cbn.
  - now rewrite app_nil_r.
  - destruct r as [r|]; [|contradiction].
    unfold bind. cbn. now rewrite IH, app_assoc.
Qed.

Lemma forEachChunk_ok (env : Env) (ctx : Context) (c : client) (e : ec2.EC2)
  (batches : list (list (ptr string))) :
  ec2Client c = Some e ->
  forall (outs : list ec2.DescribeInstancesOutput) (h : list call)
         (instances : list (ptr ec2.Instance)),
  responses env ctx e h batches = map answered outs ->
  Forall wellFormed outs ->
  forEachChunk env ctx batches instances (mkState c h)
  = (Returns (instances ++ flat_map outputInstances outs, None),
     mkState c (h ++ map (batchCall e) batches)).
Proof.
  intros He. induction batches as [| b bs IH]; intros outs h instances Hr Hw.
  - destruct outs; [|discriminate]. cbn. now rewrite !app_nil_r.
  - destruct outs as [| out outs]; [discriminate|].
    cbn [responses map] in Hr. injection Hr as Hb Hr.
    inversion_clear Hw as [| ? ? Hout Houts].
    cbn [forEachChunk]. unfold bind, get_client, deref, DescribeInstances, remote.
    cbn. rewrite He. cbn. rewrite Hb. unfold answered.
    rewrite (appendReservations_ok _ _ Hout).
    rewrite (IH outs _ _ Hr Houts).
    cbn [flat_map map]. fold (outputInstances out).
    now rewrite <- !app_assoc.
Qed.

Lemma forEachChunk_fail (env : Env) (ctx : Context) (c : client) (e : ec2.EC2)
  (batches : list (list (ptr string))) :
  ec2Client c = Some e ->
  forall (outs : list ec2.DescribeInstancesOutput) resp err rest
         (h : list call) (instances : list (ptr ec2.Instance)),
  responses env ctx e h batches = map answered outs ++ (resp, Some err) :: rest ->
  Forall wellFormed outs ->
  forEachChunk env ctx batches instances (mkState c h)
  = (Returns ([], Some (Errorf_w "describing instances: " err)),
     mkState c (h ++ map (batchCall e) (firstn (S (List.length outs)) batches))).
Proof.
  intros He. induction batches as [| b bs IH];
    intros outs resp err rest h instances Hr Hw.
  - now destruct outs.
  - cbn [forEachChunk]. unfold bind, get_client, deref, DescribeInstances, remote.
    cbn. rewrite He. cbn.
    destruct outs as [| out outs]; cbn [responses map app] in Hr;
      injection Hr as Hb Hr; rewrite Hb.
    + now destruct resp.
    + inversion_clear Hw as [| ? ? Hout Houts]. unfold answered.
      rewrite (appendReservations_ok _ _ Hout).
      rewrite (IH outs _ _ _ _ _ Hr Houts).
      cbn [List.length firstn map]. now rewrite <- !app_assoc.
Qed.

(** C2. [GetInstancesByInstanceIDs] cuts the identifiers, in their order,
    into consecutive batches of 20 with a shorter last one, makes one
    describe-call per batch in that order and, every call answering,
    returns the instances of all answers: batch after batch, reservation
    after reservation, instance after instance, nothing removed or
    reordered.  Forty-five identifiers make three calls, of 20, 20 and 5
    identifiers. *)
Theorem GetInstancesByInstanceIDs_batches
  (env : Env) (ctx : Context) (c : client) (h : list call) (e : ec2.EC2)
  (instanceIDs : list string) (outs : list ec2.DescribeInstancesOutput) :
  ec2Client c = Some e ->
  let batches := chunks 20 (map (@Some string) instanceIDs) in
  responses env ctx e h batches = map answered outs ->
  Forall wellFormed outs ->
  GetInstancesByInstanceIDs env ctx instanceIDs (mkState c h)
  = (Returns (flat_map outputInstances outs, None),
     mkState c (h ++ map (batchCall e) batches))
  /\ List.concat batches = map (@Some string) instanceIDs
  /\ Forall (fun b => 1 <= List.length b <= 20) batches
  /\ (forall pre last, batches = pre ++ [last] ->
        Forall (fun b => List.length b = 20) pre)
  /\ (List.length instanceIDs = 45 ->
        map (@List.length (ptr string)) batches = [20; 20; 5]).
Proof.
  intros He batches Hr Hw. repeat apply conj.
  - unfold GetInstancesByInstanceIDs. rewrite batchLoop_chunks. cbn [skipn].
    fold batchSize in batches. subst batches.
    now erewrite forEachChunk_ok by eassumption.
  - apply chunks_concat. lia.
  - apply chunks_bounds.
  - intros pre last. apply chunks_full.
  - intros H. apply chunks_45. now rewrite length_map.
Qed.

(** C2 on the mock: forty-five identifiers. *)
Lemma GetInstancesByInstanceIDs_batches_witness :
  let env := mockEnv (fun _ => true) (fun _ => true) describeEcho in
  let ptrs := map (@Some string) sampleIDs in
  GetInstancesByInstanceIDs env 0 sampleIDs (mkState mockClient [])
  = (Returns (map (fun v => Some (ec2.mkInstance v [])) ptrs, None),
     mkState mockClient
       [batchCall mockEC2 (firstn 20 ptrs);
        batchCall mockEC2 (firstn 20 (skipn 20 ptrs));
        batchCall mockEC2 (skipn 40 ptrs)]).
Proof.
  intros env ptrs.
  destruct (@GetInstancesByInstanceIDs_batches env 0 mockClient [] mockEC2
              sampleIDs (map echoOutput (chunks 20 ptrs)) eq_refl)
    as [H _].
  - reflexivity.
  - repeat constructor; discriminate.
  - rewrite H. reflexivity.
Defined.

(** C7. When the describe-call of a batch fails after the calls before it
    answered, [GetInstancesByInstanceIDs] makes no further call and
    returns that error, wrapped, with an empty instance list: what the
    earlier answers contributed is not returned. *)
Theorem GetInstancesByInstanceIDs_abort
  (env : Env) (ctx : Context) (c : client) (h : list call) (e : ec2.EC2)
  (instanceIDs : list string) (outs : list ec2.DescribeInstancesOutput)
  (resp : ptr ec2.DescribeInstancesOutput) (err : error)
  (rest : list (ptr ec2.DescribeInstancesOutput * ptr error)) :
  ec2Client c = Some e ->
  let batches := chunks 20 (map (@Some string) instanceIDs) in
  responses env ctx e h batches = map answered outs ++ (resp, Some err) :: rest ->
  Forall wellFormed outs ->
  GetInstancesByInstanceIDs env ctx instanceIDs (mkState c h)
  = (Returns ([], Some (WrapError ("describing instances: " ++ ErrorString err) err)),
     mkState c (h ++ map (batchCall e) (firstn (S (List.length outs)) batches))).
Proof.
  intros He batches Hr Hw.
  unfold GetInstancesByInstanceIDs. rewrite batchLoop_chunks. cbn [skipn].
  fold batchSize in batches. subst batches.
  now erewrite forEachChunk_fail by eassumption.
Qed.

Lemma echoOutput_wellFormed (values : list (ptr string)) :
  wellFormed (echoOutput values).
Proof. repeat constructor. discriminate. Qed.

Lemma sampleWellFormed :
  Forall wellFormed [echoOutput (firstn 20 (map (@Some string) sampleIDs))].
Proof. repeat constructor. discriminate. Qed.

(** C7 on the mock: forty-five identifiers, the second of the three calls
    failing.  The twenty instances of the first answer are not returned
    and the third call is not made. *)
Lemma GetInstancesByInstanceIDs_abort_witness :
  let env := mockEnv (fun _ => true) (fun _ => true) (describeFailingAt 1) in
  let ptrs := map (@Some string) sampleIDs in
  GetInstancesByInstanceIDs env 0 sampleIDs (mkState mockClient [])
  = (Returns ([], Some (WrapError "describing instances: ec2: throttled"
                          (SdkError "ec2: throttled"))),
     mkState mockClient
       [batchCall mockEC2 (firstn 20 ptrs);
        batchCall mockEC2 (firstn 20 (skipn 20 ptrs))]).
Proof.
  intros env ptrs.
  exact (@GetInstancesByInstanceIDs_abort env 0 mockClient [] mockEC2
           sampleIDs [echoOutput (firstn 20 ptrs)] None
           (SdkError "ec2: throttled")
           [answered (echoOutput (skipn 40 ptrs))]
           eq_refl eq_refl sampleWellFormed).
Defined.

(** C8. With no identifier [GetInstancesByInstanceIDs] makes no call and
    returns an empty list and a nil error. *)
Theorem GetInstancesByInstanceIDs_empty (env : Env) (ctx : Context) (s : State) :
  GetInstancesByInstanceIDs env ctx [] s = (Returns ([], None), s).
Proof.
  unfold GetInstancesByInstanceIDs. rewrite batchLoop_chunks. cbn [map skipn].
  now rewrite chunks_nil.
Qed.

(** * Further properties *)

(** ** The configuration steps *)

(** X1. [WithValidateCredentials] never changes the client.  Without a
    session it panics before any call; with a session it asks the
    credentials chain once and returns nil when the chain answers, the
    chain's error wrapped as "validating aws credentials: ..."
    otherwise. *)
Theorem WithValidateCredentials_outcomes (env : Env) (ctx : Context)
  (c : client) (h : list call) :
  (sess c = None ->
   WithValidateCredentials env ctx (mkState c h) = (Panics, mkState c h))
  /\ (forall s,
        sess c = Some s ->
        WithValidateCredentials env ctx (mkState c h)
        = (Returns (match credentials_Get env h s with
                    | Some err =>
                        Some (WrapError
                          ("validating aws credentials: " ++ ErrorString err) err)
                    | None => None
                    end),
           mkState c (h ++ [CredentialsGetCall s]))).
Proof.
  split.
  - intros Hs. unfold WithValidateCredentials, bind, get_client, deref, panic.
    cbn. now rewrite Hs.
  - intros s Hs.
    unfold WithValidateCredentials, bind, get_client, deref, Credentials_Get,
      remote, ret. cbn. rewrite Hs. cbn.
    now destruct (credentials_Get env h s).
Qed.

(** X1 on the mock: a client without a session, and a client whose
    credentials cannot be resolved. *)
Lemma WithValidateCredentials_outcomes_witness :
  let env := mockEnv (fun _ => false) (fun _ => true) (describeTags []) in
  let c := mkClient 7 None None None None None None in
  WithValidateCredentials env 0 (mkState c []) = (Panics, mkState c [])
  /\ WithValidateCredentials env 0 (mkState mockClient [])
     = (Returns (Some (WrapError
          "validating aws credentials: session: no credentials"
          (SdkError "session: no credentials"))),
        mkState mockClient [CredentialsGetCall mockSession]).
Proof.
  intros env c. split.
  - exact (proj1 (WithValidateCredentials_outcomes env 0 c []) eq_refl).
  - exact (proj2 (WithValidateCredentials_outcomes env 0 mockClient [])
             mockSession eq_refl).
Defined.

(** X2. A client built by [New] from [WithMetadata] alone is built
    without any call, and its three getters answer the injected values,
    again without any call and whatever the collaborators would do: none
    of them is configured on that client.  An injected empty cluster name
    is answered like any other. *)
Theorem New_WithMetadata_getters (env : Env) (ctx : Context) (lg : FieldLogger)
  (accountID region clusterName : string) (h : list call) :
  let c := mkClient lg None None None
             (Some region) (Some accountID) (Some clusterName) in
  New ctx lg [WithMetadata accountID region clusterName] h
  = (Returns (Some c, None), h)
  /\ GetRegion env ctx (mkState c h) = (Returns (Some region, None), mkState c h)
  /\ GetAccountID env ctx (mkState c h)
     = (Returns (Some accountID, None), mkState c h)
  /\ GetClusterName env ctx (mkState c h)
     = (Returns (Some clusterName, None), mkState c h).
Proof. intros c. repeat split. Qed.

(** X3. [WithMetadataDiscovery] opens a session with no configuration and
    asks the metadata service for the region.  When the session cannot be
    opened it returns that error wrapped as "creating metadata session:
    ..." after one call, the client unchanged.  When the region cannot be
    read it returns that error wrapped as "getting instance region: ..."
    after two calls, with the metadata client stored and the region as it
    was.  When both answer it stores the metadata client and the region,
    and nothing else: account identifier and cluster name stay as they
    were. *)
Theorem WithMetadataDiscovery_outcomes (env : Env) (ctx : Context)
  (c : client) (h : list call) :
  (forall metaSess err,
      session_NewSession env h [] = (metaSess, Some err) ->
      WithMetadataDiscovery env ctx (mkState c h)
      = (Returns (Some (WrapError
           ("creating metadata session: " ++ ErrorString err) err)),
         mkState c (h ++ [NewSessionCall []])))
  /\ (forall ms,
        session_NewSession env h [] = (Some ms, None) ->
        let m := ec2metadata.New ms in
        let calls := [NewSessionCall []; RegionCall m] in
        WithMetadataDiscovery env ctx (mkState c h)
        = match RegionWithContext env (h ++ [NewSessionCall []]) ctx m with
          | (_, Some err) =>
              (Returns (Some (WrapError
                 ("getting instance region: " ++ ErrorString err) err)),
               mkState (with_metaClient (Some m) c) (h ++ calls))
          | (r, None) =>
              (Returns None,
               mkState (with_region (Some r) (with_metaClient (Some m) c))
                       (h ++ calls))
          end).
Proof.
  split.
  - intros metaSess err Hs.
    unfold WithMetadataDiscovery, bind, NewSession, remote, ret. cbn.
    now rewrite Hs.
  - intros ms Hs m calls.
    unfold WithMetadataDiscovery, bind, NewSession, Region, remote, ret,
      deref, update, get_client. cbn. rewrite Hs. cbn.
    destruct (RegionWithContext env (h ++ [NewSessionCall []]) ctx _)
      as [r [err|]]; cbn; now rewrite <- app_assoc.
Qed.

(** X3 on the mock: the session refused, the region refused, and both
    answering. *)
Lemma WithMetadataDiscovery_outcomes_witness :
  let c := mkClient 7 None None None None None None in
  let m := ec2metadata.New (session.mkSession 1 []) in
  WithMetadataDiscovery
    (mockEnv (fun _ => false) (fun _ => true) (describeTags [])) 0 (mkState c [])
  = (Returns (Some (WrapError
       "creating metadata session: session: no credentials"
       (SdkError "session: no credentials"))),
     mkState c [NewSessionCall []])
  /\ WithMetadataDiscovery
       (mockEnv (fun _ => true) (fun _ => false) (describeTags [])) 0 (mkState c [])
     = (Returns (Some (WrapError
          "getting instance region: metadata: request failed"
          (SdkError "metadata: request failed"))),
        mkState (with_metaClient (Some m) c) [NewSessionCall []; RegionCall m])
  /\ WithMetadataDiscovery
       (mockEnv (fun _ => true) (fun _ => true) (describeTags [])) 0 (mkState c [])
     = (Returns None,
        mkState (mkClient 7 None (Some m) None (Some "eu-west-1") None None)
                [NewSessionCall []; RegionCall m]).
Proof.
  intros c m. repeat apply conj.
  - exact (proj1 (WithMetadataDiscovery_outcomes
             (mockEnv (fun _ => false) (fun _ => true) (describeTags [])) 0 c [])
             None (SdkError "session: no credentials") eq_refl).
  - exact (proj2 (WithMetadataDiscovery_outcomes
             (mockEnv (fun _ => true) (fun _ => false) (describeTags [])) 0 c [])
             (session.mkSession 1 []) eq_refl).
  - exact (proj2 (WithMetadataDiscovery_outcomes
             (mockEnv (fun _ => true) (fun _ => true) (describeTags [])) 0 c [])
             (session.mkSession 1 []) eq_refl).
Defined.

(** ** Construction, composed *)

(** X4. The construction in the order metadata discovery, EC2 client,
    credential validation: when every collaborator answers, [New] makes
    four calls in this order (metadata session, region, EC2 session,
    credentials), the EC2 session being opened with the region just
    discovered, and returns a client holding both handles and that
    region, with account identifier and cluster name still to be
    discovered. *)
Theorem New_discovery_pipeline (env : Env) (ctx : Context) (lg : FieldLogger)
  (h : list call) (ms s : session.Session) (r : string) :
  let m := ec2metadata.New ms in
  let cfg := [aws.mkConfig (Some r) (Some true)] in
  session_NewSession env h [] = (Some ms, None) ->
  RegionWithContext env (h ++ [NewSessionCall []]) ctx m = (r, None) ->
  session_NewSession env (h ++ [NewSessionCall []; RegionCall m]) cfg
    = (Some s, None) ->
  credentials_Get env (h ++ [NewSessionCall []; RegionCall m; NewSessionCall cfg]) s
    = None ->
  New ctx lg
    [WithMetadataDiscovery env; WithEC2Client env; WithValidateCredentials env] h
  = (Returns (Some (mkClient lg (Some s) (Some m) (Some (ec2.New s))
                      (Some r) None None), None),
     h ++ [NewSessionCall []; RegionCall m; NewSessionCall cfg;
           CredentialsGetCall s]).
Proof.
  intros m cfg H1 H2 H3 H4.
  unfold New, applyOpts, WithMetadataDiscovery, WithEC2Client,
    WithValidateCredentials, bind, NewSession, Region, Credentials_Get,
    remote, ret, deref, update, get_client.
  subst cfg.
  cbv [aws.WithCredentialsChainVerboseErrors aws.WithRegion aws.NewConfig
       aws.Region aws.CredentialsChainVerboseErrors].
  cbn. rewrite H1. cbn. fold m. rewrite H2. cbn.
  rewrite <- app_assoc. cbn [app]. rewrite H3. cbn.
  rewrite <- app_assoc. cbn [app]. rewrite H4. cbn.
  now rewrite <- app_assoc.
Qed.

(** X4 on the mock. *)
Lemma New_discovery_pipeline_witness :
  let env := mockEnv (fun _ => true) (fun _ => true) (describeTags []) in
  let ms := session.mkSession 1 [] in
  let cfg := [aws.mkConfig (Some "eu-west-1") (Some true)] in
  let s := session.mkSession 1 cfg in
  New 0 7
    [WithMetadataDiscovery env; WithEC2Client env; WithValidateCredentials env] []
  = (Returns (Some (mkClient 7 (Some s) (Some (ec2metadata.New ms))
                      (Some (ec2.New s)) (Some "eu-west-1") None None), None),
     [NewSessionCall []; RegionCall (ec2metadata.New ms); NewSessionCall cfg;
      CredentialsGetCall s]).
Proof.
  intros env ms cfg s.
  exact (@New_discovery_pipeline env 0 7 [] ms s "eu-west-1"
           eq_refl eq_refl eq_refl eq_refl).
Defined.

(** X5. A panic in a step is the outcome of [New]: when a step panics
    after its predecessors returned nil, [New] panics with the calls made
    up to there, and no later step runs.  In particular [New] panics,
    having made no call, whenever [WithEC2Client] or
    [WithValidateCredentials] is the first step: the region, respectively
    the session, it needs is then nil. *)
Theorem New_step_panics (ctx : Context) (lg : FieldLogger) (h : list call) :
  let fresh := mkState (mkClient lg None None None None None None) h in
  (forall pre opt post s1 s2,
      stepsOk ctx pre fresh s1 ->
      opt ctx s1 = (Panics, s2) ->
      New ctx lg (pre ++ opt :: post) h = (Panics, history s2))
  /\ (forall env post, New ctx lg (WithEC2Client env :: post) h = (Panics, h))
  /\ (forall env post,
        New ctx lg (WithValidateCredentials env :: post) h = (Panics, h)).
Proof.
  intros fresh. repeat apply conj.
  - intros pre opt post s1 s2 Hpre Hopt. unfold New. fold fresh.
    rewrite (applyOpts_app _ Hpre). cbn [applyOpts]. unfold bind.
    now rewrite Hopt.
  - reflexivity.
  - reflexivity.
Qed.

(** X5 on the mock: static metadata, then credential validation with no
    session opened, then the EC2-client step that would have opened it. *)
Lemma New_step_panics_witness :
  let env := mockEnv (fun _ => true) (fun _ => true) (describeTags []) in
  New 0 7
    [WithMetadata "123456789012" "eu-west-1" "prod";
     WithValidateCredentials env;
     WithEC2Client env] []
  = (Panics, []).
Proof.
  intros env.
  pose (c1 := mkClient 7 None None None
                (Some "eu-west-1") (Some "123456789012") (Some "prod")).
  refine (proj1 (@New_step_panics 0 7 [])
    [WithMetadata "123456789012" "eu-west-1" "prod"]
    (WithValidateCredentials env) [WithEC2Client env]
    (mkState c1 []) (mkState c1 []) _ _).
  - eapply stepsOk_cons; [reflexivity | apply stepsOk_nil].
  - reflexivity.
Defined.

(** ** The tag scan, further *)

Lemma HasPrefix_app (prefix rest : string) :
  HasPrefix (prefix ++ rest)%string prefix = true.
Proof.
  induction prefix as [|a prefix IH]; cbn; [now destruct rest|].
  now rewrite Ascii.eqb_refl, IH.
Qed.

Lemma TrimPrefix_app (prefix rest : string) :
  TrimPrefix (prefix ++ rest)%string prefix = rest.
Proof.
  unfold TrimPrefix. rewrite HasPrefix_app.
  induction prefix as [|a prefix IH]; cbn; [reflexivity | exact IH].
Qed.

Lemma HasPrefix_split (s prefix : string) :
  HasPrefix s prefix = true -> s = (prefix ++ TrimPrefix s prefix)%string.
Proof.
  intros H. unfold TrimPrefix. rewrite H. revert s H.
  induction prefix as [|a prefix IH]; intros s H; cbn; [reflexivity|].
  destruct s as [|b s]; cbn in H; [discriminate|].
  apply andb_true_iff in H as [Hab Hs].
  apply Ascii.eqb_eq in Hab. subst b. cbn. f_equal. now apply IH.
Qed.

Lemma matchClusterTags_some (key value name : string) :
  matchClusterTags key value eksClusterTags = Some name ->
  value = owned
  /\ (key = (tagEKSK8sCluster ++ name)%string
      \/ key = (tagEKSKubernetesCluster ++ name)%string).
Proof.
  unfold eksClusterTags. cbn [matchClusterTags].
  destruct (String.eqb_spec value owned) as [Hv|Hv].
  - rewrite !andb_true_r.
    destruct (HasPrefix key tagEKSK8sCluster) eqn:H1.
    { intros [= <-]. split; [exact Hv|]. left. now apply HasPrefix_split. }
    destruct (HasPrefix key tagEKSKubernetesCluster) eqn:H2; [|discriminate].
    intros [= <-]. split; [exact Hv|]. right. now apply HasPrefix_split.
  - rewrite !andb_false_r. discriminate.
Qed.

(** X6. [getClusterName] invents nothing: a non-empty answer is read off
    a tag of the list, either as what follows an ownership prefix in the
    key of a tag whose value is ["owned"], or as the value of a tag whose
    key is ["KubernetesCluster"]. *)
Theorem getClusterName_provenance (tags : list (ptr ec2.Tag)) (name : string) :
  getClusterName tags = name ->
  name <> "" ->
  exists key value,
    In (Some (ec2.mkTag (Some key) (Some value))) tags
    /\ ((value = "owned"
         /\ (key = ("k8s.io/cluster/" ++ name)%string
             \/ key = ("kubernetes.io/cluster/" ++ name)%string))
        \/ (key = "KubernetesCluster" /\ value = name)).
Proof.
  intros <- Hne. induction tags as [|tag tags IH]; [now contradiction Hne|].
  assert (Hrest : getClusterName tags <> "" ->
                  exists key value,
                    In (Some (ec2.mkTag (Some key) (Some value))) (tag :: tags)
                    /\ ((value = "owned"
                         /\ (key = ("k8s.io/cluster/" ++ getClusterName tags)%string
                             \/ key = ("kubernetes.io/cluster/" ++ getClusterName tags)%string))
                        \/ (key = "KubernetesCluster"
                            /\ value = getClusterName tags))).
  { intros H. destruct (IH H) as (k & v & Hin & Hk).
    exists k, v. split; [now right | exact Hk]. }
  cbn [getClusterName] in *.
  destruct tag as [[[key|] [value|]]|]; auto.
  destruct (matchClusterTags key value eksClusterTags) as [n|] eqn:Hm.
  - apply matchClusterTags_some in Hm as [Hv Hk].
    exists key, value. split; [now left|]. left. auto.
  - destruct (String.eqb_spec key tagKOPSKubernetesCluster) as [->|]; auto.
    exists tagKOPSKubernetesCluster, value. split; [now left|]. right. auto.
Qed.

(** X6 at a concrete list. *)
Lemma getClusterName_provenance_witness :
  exists key value,
    In (Some (ec2.mkTag (Some key) (Some value)))
       [None; Some (ec2.mkTag (Some "k8s.io/cluster/dev") (Some "owned"))]
    /\ ((value = "owned"
         /\ (key = ("k8s.io/cluster/" ++ "dev")%string
             \/ key = ("kubernetes.io/cluster/" ++ "dev")%string))
        \/ (key = "KubernetesCluster" /\ value = "dev")).
Proof.
  apply (@getClusterName_provenance
           [None; Some (ec2.mkTag (Some "k8s.io/cluster/dev") (Some "owned"))]
           "dev").
  - reflexivity.
  - discriminate.
Defined.

Lemma acceptsTag_scan (key value : string) :
  acceptsTag (Some (ec2.mkTag (Some key) (Some value)))
  = match matchClusterTags key value eksClusterTags with
    | Some _ => true
    | None => String.eqb key tagKOPSKubernetesCluster
    end.
Proof.
  unfold acceptsTag, eksClusterTags. cbn [existsb matchClusterTags].
  destruct (HasPrefix key tagEKSK8sCluster && String.eqb value owned);
    [reflexivity|].
  destruct (HasPrefix key tagEKSKubernetesCluster && String.eqb value owned);
    reflexivity.
Qed.

(** X7. Scanning two lists one after the other: the first list decides
    as soon as it holds a tag that a rule accepts, even when the name it
    gives is empty; otherwise the scan is that of the second list. *)
Theorem getClusterName_app (l1 l2 : list (ptr ec2.Tag)) :
  getClusterName (l1 ++ l2)
  = if existsb acceptsTag l1 then getClusterName l1 else getClusterName l2.
Proof.
  induction l1 as [|tag l1 IH]; [reflexivity|].
  cbn [app getClusterName existsb].
  destruct tag as [[[key|] [value|]]|]; try exact IH.
  rewrite acceptsTag_scan.
  destruct (matchClusterTags key value eksClusterTags); [reflexivity|].
  destruct (String.eqb key tagKOPSKubernetesCluster); [reflexivity | exact IH].
Qed.

(** ** Cluster-name discovery, further *)

(** X8. A discovering [GetClusterName] whose instance carries, as first
    accepted tag, the tag [prefix ++ name = "owned"] for an ownership
    prefix, or the tag ["KubernetesCluster" = name], with [name] not
    empty, returns [name] after the two calls of the lookup and stores it
    in the client. *)
Theorem GetClusterName_discovers
  (env : Env) (ctx : Context) (c : client) (h : list call)
  (m : ec2metadata.EC2Metadata) (e : ec2.EC2)
  (instanceID : string) (resp : ec2.DescribeInstancesOutput)
  (r : ec2.Reservation) (rs : list (ptr ec2.Reservation))
  (i : ec2.Instance) (insts : list (ptr ec2.Instance))
  (pre post : list (ptr ec2.Tag)) (key value name : string) :
  clusterName c = None ->
  metaClient c = Some m ->
  ec2Client c = Some e ->
  GetMetadataWithContext env h ctx m "instance-id" = (instanceID, None) ->
  DescribeInstancesWithContext env (h ++ [GetMetadataCall m "instance-id"])
    ctx e (ec2.mkInput [] [Some instanceID]) = (Some resp, None) ->
  ec2.Reservations resp = Some r :: rs ->
  ec2.Instances r = Some i :: insts ->
  ec2.Tags i = pre ++ Some (ec2.mkTag (Some key) (Some value)) :: post ->
  Forall matchesNoRule pre ->
  name <> "" ->
  (value = "owned"
   /\ (key = ("k8s.io/cluster/" ++ name)%string
       \/ key = ("kubernetes.io/cluster/" ++ name)%string))
  \/ (key = "KubernetesCluster" /\ value = name) ->
  GetClusterName env ctx (mkState c h)
  = (Returns (Some name, None),
     mkState (with_clusterName (Some name) c)
             (h ++ discoveryCalls m e instanceID)).
Proof.
  intros Hc Hm He Hmeta Hdesc H1 H2 Ht Hpre Hne Hrule.
  assert (Hname : getClusterName (ec2.Tags i) = name).
  { rewrite Ht, (getClusterName_skip _ Hpre). cbn [getClusterName].
    destruct Hrule as [[-> Hk] | [-> ->]].
    - assert (Hx : exists prefix, In prefix eksClusterTags
                   /\ key = (prefix ++ name)%string).
      { destruct Hk as [-> | ->]; eexists; split; try reflexivity; cbn; auto. }
      destruct Hx as (prefix & Hin & ->).
      rewrite (@matchClusterTags_owned _ _ prefix Hin (HasPrefix_app _ _) eq_refl).
      apply TrimPrefix_app.
    - reflexivity. }
  erewrite discovery_tags; try eassumption.
  - rewrite Hname. destruct (String.eqb_spec name ""); [contradiction|reflexivity].
  - rewrite Ht. now destruct pre.
Qed.

(** X8 on the mock. *)
Lemma GetClusterName_discovers_witness :
  GetClusterName (mockEnv (fun _ => true) (fun _ => true) describeProd) 0
    (mkState mockClient [])
  = (Returns (Some "prod", None),
     mkState (with_clusterName (Some "prod") mockClient)
             (discoveryCalls mockMeta mockEC2 "i-0abc")).
Proof.
  refine (@GetClusterName_discovers
    (mockEnv (fun _ => true) (fun _ => true) describeProd)
    0 mockClient [] mockMeta mockEC2 "i-0abc" _ _ [] _ []
    [] [] "kubernetes.io/cluster/prod" "owned" "prod"
    eq_refl eq_refl eq_refl eq_refl eq_refl eq_refl eq_refl eq_refl
    (Forall_nil _) _ (or_introl (conj eq_refl (or_intror eq_refl)))).
  discriminate.
Defined.

Lemma string_app_assoc (a b c : string) :
  ((a ++ b) ++ c)%string = (a ++ b ++ c)%string.
Proof. induction a as [|x a IH]; cbn; [reflexivity | now rewrite IH]. Qed.

(** X9. The errors of [GetClusterName] are of six kinds and no other: an
    error of the metadata service or of the EC2 API, wrapped with the
    step that failed and recoverable by [errors.Unwrap], or one of the
    four structural errors, which wrap nothing.  The instance identifier
    appears in all but the first. *)
Theorem GetClusterName_error_kinds (env : Env) (ctx : Context) (s s1 : State)
  (p : ptr string) (err : error) :
  GetClusterName env ctx s = (Returns (p, Some err), s1) ->
  (exists cause,
      Unwrap err = Some cause
      /\ ErrorString err
         = ("getting instance id from metadata: " ++ ErrorString cause)%string)
  \/ exists instanceID,
       (exists cause,
           Unwrap err = Some cause
           /\ ErrorString err
              = ("describing instance_id=" ++ instanceID ++ ": "
                 ++ ErrorString cause)%string)
       \/ err = Errorf ("no reservations found for instance_id=" ++ instanceID)
       \/ err = Errorf ("no instances found for instance_id=" ++ instanceID)
       \/ err = Errorf ("no tags found for instance_id=" ++ instanceID)
       \/ err = Errorf
            ("discovering cluster name: instance cluster tags not found for instance_id="
             ++ instanceID).
Proof.
  destruct s as [c h]. run_getter.
  destruct (clusterName c) as [r|] eqn:Hr; cbn; [discriminate|].
  destruct (metaClient c) as [m|]; cbn; [|discriminate].
  destruct (GetMetadataWithContext env h ctx m "instance-id")
    as [instanceID [e0|]]; cbn.
  { intros [= _ <- _]. left. exists e0. split; reflexivity. }
  destruct (ec2Client c) as [e|]; cbn; [|discriminate].
  destruct (DescribeInstancesWithContext _ _ _ _ _) as [resp [e0|]]; cbn.
  { intros [= _ <- _]. right. exists instanceID. left. exists e0.
    split; [reflexivity|]. cbn. now rewrite string_app_assoc. }
  destruct resp as [resp|]; cbn; [|discriminate].
  destruct (ec2.Reservations resp) as [|[r|] rs]; cbn; try discriminate.
  { intros [= _ <- _]. right. exists instanceID. auto. }
  destruct (ec2.Instances r) as [|[i|] insts]; cbn; try discriminate.
  { intros [= _ <- _]. right. exists instanceID. auto. }
  destruct (ec2.Tags i) as [|t ts] eqn:Ht; cbn [length Nat.eqb].
  { intros [= _ <- _]. right. exists instanceID. auto 6. }
  destruct (String.eqb _ ""); cbn; [|discriminate].
  intros [= _ <- _]. right. exists instanceID. auto 7.
Qed.

(** X9 on the mock: the EC2 API failing. *)
Lemma GetClusterName_error_kinds_witness :
  let err := WrapError "describing instance_id=i-0abc: ec2: throttled"
               (SdkError "ec2: throttled") in
  Unwrap err = Some (SdkError "ec2: throttled")
  /\ ((exists cause,
          Unwrap err = Some cause
          /\ ErrorString err
             = ("getting instance id from metadata: " ++ ErrorString cause)%string)
      \/ exists instanceID,
           (exists cause,
               Unwrap err = Some cause
               /\ ErrorString err
                  = ("describing instance_id=" ++ instanceID ++ ": "
                     ++ ErrorString cause)%string)
           \/ err = Errorf ("no reservations found for instance_id=" ++ instanceID)
           \/ err = Errorf ("no instances found for instance_id=" ++ instanceID)
           \/ err = Errorf ("no tags found for instance_id=" ++ instanceID)
           \/ err = Errorf
                ("discovering cluster name: instance cluster tags not found for instance_id="
                 ++ instanceID)).
Proof.
  intros err. split; [reflexivity|].
  exact (@GetClusterName_error_kinds
           (mockEnv (fun _ => true) (fun _ => true)
              (fun _ _ => (None, Some (SdkError "ec2: throttled"))))
           0 (mkState mockClient [])
           (mkState mockClient (discoveryCalls mockMeta mockEC2 "i-0abc"))
           None err eq_refl).
Defined.

(** ** What the getters leave alone *)

Ltac frame :=
  unfold with_region, with_accountID, with_clusterName; cbn;
  repeat split; eauto 8.

(** X10. Whatever its outcome, a getter changes no field of the client
    but its own, never replaces a value its field already holds, and
    makes at most the calls of one lookup: one region call for
    [GetRegion], one identity-document call for [GetAccountID], and for
    [GetClusterName] the instance-identifier call alone or followed by one
    describe-call. *)
Theorem getters_frame (env : Env) (ctx : Context) (s : State) :
  (let s1 := snd (GetRegion env ctx s) in
   this s1 = with_region (region (this s1)) (this s)
   /\ (region (this s) = None \/ region (this s1) = region (this s))
   /\ (history s1 = history s
       \/ exists m, history s1 = history s ++ [RegionCall m]))
  /\ (let s1 := snd (GetAccountID env ctx s) in
      this s1 = with_accountID (accountID (this s1)) (this s)
      /\ (accountID (this s) = None \/ accountID (this s1) = accountID (this s))
      /\ (history s1 = history s
          \/ exists m, history s1 = history s ++ [IdentityDocumentCall m]))
  /\ (let s1 := snd (GetClusterName env ctx s) in
      this s1 = with_clusterName (clusterName (this s1)) (this s)
      /\ (clusterName (this s) = None
          \/ clusterName (this s1) = clusterName (this s))
      /\ (history s1 = history s
          \/ (exists m, history s1 = history s ++ [GetMetadataCall m "instance-id"])
          \/ exists m e instanceID,
               history s1 = history s ++ discoveryCalls m e instanceID)).
Proof.
  destruct s as [[lg ss mc ec rg acc cn] h]. split; [|split].
  - run_getter. destruct rg as [r|]; cbn; [frame|].
    destruct mc as [m|]; cbn; [|frame].
    destruct (RegionWithContext env h ctx m) as [r [err|]]; cbn;
      frame.
  - run_getter. destruct acc as [r|]; cbn; [frame|].
    destruct mc as [m|]; cbn; [|frame].
    destruct (GetInstanceIdentityDocumentWithContext env h ctx m)
      as [r [err|]]; cbn; frame.
  - run_getter. destruct cn as [r|]; cbn; [frame|].
    destruct mc as [m|]; cbn; [|frame].
    destruct (GetMetadataWithContext env h ctx m "instance-id")
      as [instanceID [e0|]]; cbn; [frame|].
    destruct ec as [e|]; cbn; [|frame].
    assert (Hcalls :
      (h ++ [GetMetadataCall m "instance-id"]) ++
        [DescribeInstancesCall e (ec2.mkInput [] [Some instanceID])]
      = h ++ discoveryCalls m e instanceID)
      by now rewrite <- app_assoc.
    destruct (DescribeInstancesWithContext _ _ _ _ _) as [resp [e0|]]; cbn;
      [rewrite Hcalls; frame|].
    destruct resp as [resp|]; cbn; [|rewrite Hcalls; frame].
    destruct (ec2.Reservations resp) as [|[r|] rs]; cbn;
      [rewrite Hcalls; frame | | rewrite Hcalls; frame].
    destruct (ec2.Instances r) as [|[i|] insts]; cbn;
      [rewrite Hcalls; frame | | rewrite Hcalls; frame].
    destruct (ec2.Tags i) as [|t ts] eqn:Ht; cbn [length Nat.eqb];
      [rewrite Hcalls; frame|].
    destruct (String.eqb _ ""); cbn [fst snd this history];
      rewrite Hcalls; frame.
Qed.

(** ** The batched lookup, further *)

Lemma chunks_count {A : Type} (n : nat) (l : list A) :
  0 < n -> List.length (chunks n l) = (List.length l + (n - 1)) / n.
Proof.
  funelim (chunks n l); intros Hn; [lia | |].
  - cbn [List.length]. symmetry. apply Nat.div_small. lia.
  - cbn [List.length]. rewrite H, length_skipn by lia.
    replace (S k - 1) with k by lia.
    destruct (Nat.lt_ge_cases (List.length l) k) as [Hlt | Hge].
    + replace (List.length l - k + k) with k by lia.
      rewrite (Nat.div_small k (S k)) by lia.
      apply (Nat.div_unique _ _ 1 (List.length l)); lia.
    + replace (List.length l - k + k) with (List.length l) by lia.
      replace (S (List.length l) + k) with (List.length l + 1 * S k) by lia.
      rewrite Nat.div_add by lia. lia.
Qed.

Lemma appendReservations_state (rs : list (ptr ec2.Reservation))
  (instances : list (ptr ec2.Instance)) (s : State) :
  snd (appendReservations instances rs s) = s.
Proof.
  revert instances. induction rs as [|[r|] rs IH]; intros instances; cbn;
    unfold bind; cbn; auto.
Qed.

Lemma forEachChunk_calls (env : Env) (ctx : Context) (c : client) (e : ec2.EC2) :
  ec2Client c = Some e ->
  forall (batches : list (list (ptr string)))
         (instances : list (ptr ec2.Instance)) (h : list call),
  exists k,
    k <= List.length batches
    /\ snd (forEachChunk env ctx batches instances (mkState c h))
       = mkState c (h ++ map (batchCall e) (firstn k batches))
    /\ (forall l,
          fst (forEachChunk env ctx batches instances (mkState c h))
          = Returns (l, None) -> k = List.length batches)
    /\ (forall l err,
          fst (forEachChunk env ctx batches instances (mkState c h))
          = Returns (l, Some err) ->
          l = [] /\ exists cause, err = Errorf_w "describing instances: " cause).
Proof.
  intros He. induction batches as [|b bs IH]; intros instances h.
  - exists 0. cbn. rewrite app_nil_r. repeat split; auto; discriminate.
  - cbn [forEachChunk]. unfold bind, get_client, deref, DescribeInstances, remote.
    cbn. rewrite He. cbn.
    destruct (DescribeInstancesWithContext env h ctx e (batchRequest b))
      as [resp [err|]].
    + exists 1. destruct resp; cbn;
        (split; [lia|]; split; [reflexivity|]; split; [discriminate|];
         intros l err0 [= <- <-]; eauto).
    + destruct resp as [resp|].
      2:{ exists 1. cbn.
          split; [lia|]; split; [reflexivity|]; split; discriminate. }
      pose proof (appendReservations_state (ec2.Reservations resp) instances
                    (mkState c (h ++ [DescribeInstancesCall e (batchRequest b)])))
        as Hs.
      destruct (appendReservations _ _ _) as [[instances'|] s2]; cbn in Hs; subst s2.
      * destruct (IH instances' (h ++ [DescribeInstancesCall e (batchRequest b)]))
          as (k & Hk & Hsnd & Hok & Herr).
        exists (S k). cbn [List.length firstn map].
        split; [lia|]. split; [|split].
        -- rewrite Hsnd, <- app_assoc. reflexivity.
        -- intros l Hl. f_equal. eapply Hok. exact Hl.
        -- exact Herr.
      * exists 1. cbn.
        split; [lia|]; split; [reflexivity|]; split; discriminate.
Qed.

Lemma forEachChunk_client (env : Env) (ctx : Context)
  (batches : list (list (ptr string))) (instances : list (ptr ec2.Instance))
  (s : State) :
  this (snd (forEachChunk env ctx batches instances s)) = this s.
Proof.
  destruct s as [c h]. destruct (ec2Client c) as [e|] eqn:He.
  - destruct (forEachChunk_calls env ctx c He batches instances h)
      as (k & _ & -> & _). reflexivity.
  - destruct batches as [|b bs]; [reflexivity|].
    cbn [forEachChunk]. unfold bind, get_client, deref, panic. cbn.
    now rewrite He.
Qed.

Lemma forEachChunk_frame (env : Env) (ctx : Context)
  (batches : list (list (ptr string))) (instances : list (ptr ec2.Instance))
  (s : State) :
  let res := forEachChunk env ctx batches instances s in
  this (snd res) = this s
  /\ (forall e,
        ec2Client (this s) = Some e ->
        exists k,
          k <= List.length batches
          /\ history (snd res)
             = history s ++ map (batchCall e) (firstn k batches)
          /\ (forall l, fst res = Returns (l, None) -> k = List.length batches))
  /\ (forall l err,
        fst res = Returns (l, Some err) ->
        l = []
        /\ exists cause,
             err = WrapError ("describing instances: " ++ ErrorString cause) cause).
Proof.
  intros res. subst res. split; [|split].
  - apply forEachChunk_client.
  - intros e He. destruct s as [c h]. cbn in He.
    destruct (forEachChunk_calls env ctx c He batches instances h)
      as (k & Hk & Hsnd & Hok & _).
    exists k. rewrite Hsnd. auto.
  - intros l err Hres. destruct s as [c h].
    destruct (ec2Client c) as [e|] eqn:He.
    + destruct (forEachChunk_calls env ctx c He batches instances h)
        as (k & _ & _ & _ & Herr).
      exact (Herr l err Hres).
    + destruct batches as [|b bs]; [discriminate|].
      cbn [forEachChunk] in Hres. unfold bind, get_client, deref, panic in Hres.
      cbn in Hres. rewrite He in Hres. discriminate.
Qed.

(** X11. Whatever its outcome, [GetInstancesByInstanceIDs] leaves the
    client as it was.  With an EC2 client configured, the calls it makes
    are the describe-calls of the first [k] batches, in order, for some
    [k] no larger than the number of batches, which is the number of
    identifiers divided by 20 and rounded up; when it returns a nil
    error every batch has been asked for.  An error it returns comes with
    an empty list and is an error of the EC2 API wrapped as "describing
    instances: ...". *)
Theorem GetInstancesByInstanceIDs_frame (env : Env) (ctx : Context)
  (instanceIDs : list string) (s : State) :
  let res := GetInstancesByInstanceIDs env ctx instanceIDs s in
  let batches := chunks 20 (map (@Some string) instanceIDs) in
  this (snd res) = this s
  /\ List.length batches = (List.length instanceIDs + 19) / 20
  /\ (forall e,
        ec2Client (this s) = Some e ->
        exists k,
          k <= List.length batches
          /\ history (snd res)
             = history s ++ map (batchCall e) (firstn k batches)
          /\ (forall l, fst res = Returns (l, None) -> k = List.length batches))
  /\ (forall l err,
        fst res = Returns (l, Some err) ->
        l = []
        /\ exists cause,
             err = WrapError ("describing instances: " ++ ErrorString cause) cause).
Proof.
  intros res batches. subst res batches.
  unfold GetInstancesByInstanceIDs. rewrite batchLoop_chunks. cbn [skipn].
  destruct (forEachChunk_frame env ctx
              (chunks batchSize (map (@Some string) instanceIDs)) [] s)
    as (Hc & Hcalls & Herr).
  split; [exact Hc|]. split; [|split; [exact Hcalls | exact Herr]].
  change 20 with batchSize. unfold batchSize.
  rewrite chunks_count, length_map by lia. reflexivity.
Qed.

(** X11 on the mock: forty-five identifiers and the second call failing;
    two of the three batches are asked for. *)
Lemma GetInstancesByInstanceIDs_frame_witness :
  let env := mockEnv (fun _ => true) (fun _ => true) (describeFailingAt 1) in
  let res := GetInstancesByInstanceIDs env 0 sampleIDs (mkState mockClient []) in
  this (snd res) = mockClient
  /\ List.length (chunks 20 (map (@Some string) sampleIDs)) = 3
  /\ (exists k,
        k <= 3
        /\ history (snd res)
           = map (batchCall mockEC2)
               (firstn k (chunks 20 (map (@Some string) sampleIDs))))
  /\ fst res = Returns ([], Some (WrapError "describing instances: ec2: throttled"
                                   (SdkError "ec2: throttled"))).
Proof.
  intros env res.
  destruct (@GetInstancesByInstanceIDs_frame env 0 sampleIDs (mkState mockClient []))
    as (Hc & Hn & Hcalls & Herr).
  repeat apply conj.
  - exact Hc.
  - exact Hn.
  - destruct (Hcalls mockEC2 eq_refl) as (k & Hk & Hh & _).
    exists k. split; [exact Hk | exact Hh].
  - reflexivity.
Defined.




(** X13. Static metadata and discovery in one construction: the step
    that comes last decides the region.  Discovery followed by
    [WithMetadata] keeps the injected region; [WithMetadata] followed by
    discovery replaces the injected region by the discovered one.  Either
    way the metadata client is configured, the account identifier and the
    cluster name are the injected ones, and the same two calls are
    made. *)
Theorem New_metadata_override (env : Env) (ctx : Context) (lg : FieldLogger)
  (h : list call) (ms : session.Session)
  (discovered accountID region clusterName : string) :
  let m := ec2metadata.New ms in
  session_NewSession env h [] = (Some ms, None) ->
  RegionWithContext env (h ++ [NewSessionCall []]) ctx m = (discovered, None) ->
  New ctx lg
    [WithMetadataDiscovery env; WithMetadata accountID region clusterName] h
  = (Returns (Some (mkClient lg None (Some m) None
                      (Some region) (Some accountID) (Some clusterName)), None),
     h ++ [NewSessionCall []; RegionCall m])
  /\ New ctx lg
       [WithMetadata accountID region clusterName; WithMetadataDiscovery env] h
     = (Returns (Some (mkClient lg None (Some m) None
                         (Some discovered) (Some accountID) (Some clusterName)),
                 None),
        h ++ [NewSessionCall []; RegionCall m]).
Proof.
  intros m H1 H2.
  unfold New, applyOpts, WithMetadataDiscovery, WithMetadata, bind, NewSession,
    Region, remote, ret, deref, update, get_client.
  cbn. rewrite H1. cbn. fold m. rewrite H2. cbn.
  now rewrite <- app_assoc.
Qed.

(** X13 on the mock. *)
Lemma New_metadata_override_witness :
  let env := mockEnv (fun _ => true) (fun _ => true) (describeTags []) in
  let m := ec2metadata.New (session.mkSession 1 []) in
  New 0 7 [WithMetadataDiscovery env; WithMetadata "123456789012" "us-east-1" "prod"] []
  = (Returns (Some (mkClient 7 None (Some m) None
                      (Some "us-east-1") (Some "123456789012") (Some "prod")), None),
     [NewSessionCall []; RegionCall m])
  /\ New 0 7 [WithMetadata "123456789012" "us-east-1" "prod"; WithMetadataDiscovery env] []
     = (Returns (Some (mkClient 7 None (Some m) None
                         (Some "eu-west-1") (Some "123456789012") (Some "prod")), None),
        [NewSessionCall []; RegionCall m]).
Proof.
  intros env m.
  exact (@New_metadata_override env 0 7 [] (session.mkSession 1 [])
           "eu-west-1" "123456789012" "us-east-1" "prod" eq_refl eq_refl).
Defined.
